(** * Video classification with an LRCN: [run.py] and [preprocess.py]

    A shallow embedding of the two scripts of the repository.  The scripts
    are glue code: almost every line calls into PyTorch, NumPy, the
    operating system, or into the repository's own modules
    [video_datasets], [utils], [models], [train] and [test].  The
    embedding therefore represents a script as a tree of calls (a small
    free monad), keeps the pure Python computations the scripts do
    themselves (string tests, path joins, the dictionary comprehension,
    the decoding of the split record), and runs a script against a
    handler that answers the calls. *)

From Stdlib Require Import ZArith QArith Qround Lia String Ascii List.
From Stdlib Require Import DecimalString DecimalZ DecimalPos Permutation.
From stdpp Require Import base option list gmap strings.

Local Open Scope Z_scope.
Local Open Scope string_scope.

(** ** Python values and built-ins used by the scripts *)

Module Py.

(** Exceptions.  [Exception name msg] stands for any exception raised
    inside a library or a module that is called. *)
Inductive exn : Type :=
| ValueError (msg : string)
| KeyError (key : string)
| IndexError
| SystemExit (code : Z) (msg : string)
| Exception (name msg : string).

(** An opaque Python object (a tensor, a model, a data loader, ...),
    known by its identity only. *)
Record obj : Type := Obj { obj_id : nat }.

(** The double quote character, as a string. *)
Definition dq : string := String (ascii_of_nat 34) EmptyString.

(** [str(n)] for an [int]. *)
Definition str (n : Z) : string := NilZero.string_of_int (Z.to_int n).

(** The white space [int] strips from both ends of its argument: space,
    tab, line feed, vertical tab, form feed and carriage return. *)
Definition is_space (c : ascii) : bool :=
  let n := nat_of_ascii c in
  (n =? 32)%nat || ((9 <=? n)%nat && (n <=? 13)%nat).

(** A decimal digit, [0] to [9]. *)
Definition is_digit (c : ascii) : bool :=
  let n := nat_of_ascii c in (48 <=? n)%nat && (n <=? 57)%nat.

(** A string of decimal digits only. *)
Fixpoint all_digits (s : string) : bool :=
  match s with
  | EmptyString => true
  | String c s' => is_digit c && all_digits s'
  end.

Fixpoint lstrip (s : string) : string :=
  match s with
  | EmptyString => EmptyString
  | String c s' => if is_space c then lstrip s' else s
  end.

Fixpoint rstrip (s : string) : string :=
  match s with
  | EmptyString => EmptyString
  | String c s' =>
      match rstrip s' with
      | EmptyString => if is_space c then EmptyString else String c EmptyString
      | r => String c r
      end
  end.

(** The digits of a literal without its sign: one digit at least, and
    single underscores allowed between two digits only.  [after_digit]
    tells whether the character before was a digit.  The result is the
    literal with its underscores removed. *)
Fixpoint group_digits (after_digit : bool) (s : string) : option string :=
  match s with
  | EmptyString => if after_digit then Some EmptyString else None
  | String c s' =>
      if Ascii.eqb c "_" then
        if after_digit then group_digits false s' else None
      else if is_digit c then option_map (String c) (group_digits true s')
      else None
  end.

(** [int(s)] for a string, base ten: white space around the literal is
    dropped, then come an optional sign and the digits, which may be
    grouped with underscores.  Strings are ASCII here; the digits and
    spaces of other scripts that Python also takes are left out.  The
    message of the [ValueError] is kept up to its colon: Python appends
    the [repr] of the argument. *)
Definition int (s : string) : exn + Z :=
  let t := rstrip (lstrip s) in
  let '(negative, body) :=
    match t with
    | String "-" r => (true, r)
    | String "+" r => (false, r)
    | _ => (false, t)
    end in
  match group_digits false body ≫= NilZero.uint_of_string with
  | Some u => inr (if negative : bool then - Z.of_uint u else Z.of_uint u)
  | None => inl (ValueError "invalid literal for int() with base 10")
  end.

(** The strings on which [int] is Python's [int] to the letter: ASCII
    characters only, and at most 4300 of them, the number of digits that
    Python converts from version 3.11 on. *)
Fixpoint all_ascii (s : string) : bool :=
  match s with
  | EmptyString => true
  | String c s' => (nat_of_ascii c <? 128)%nat && all_ascii s'
  end.

Definition plain (s : string) : bool :=
  all_ascii s && (String.length s <=? 4300)%nat.

(** [s.endswith(suffix)]. *)
Definition endswith (s suffix : string) : bool :=
  let n := String.length s in
  let m := String.length suffix in
  if (m <=? n)%nat then String.eqb (substring (n - m) m s) suffix else false.

(** [s.startswith(prefix)]. *)
Definition startswith (s pre : string) : bool := String.prefix pre s.

(** [s.split(sep)[0]] for a one-character separator: the part of [s]
    before the first [sep], all of [s] when there is none. *)
Fixpoint split_head (sep : ascii) (s : string) : string :=
  match s with
  | EmptyString => EmptyString
  | String c s' =>
      if Ascii.eqb c sep then EmptyString else String c (split_head sep s')
  end.

(** One step of [posixpath.join]: an absolute component replaces the
    path so far; otherwise it is appended, with a separator unless the
    path is empty or already ends with one. *)
Definition join_step (path b : string) : string :=
  if startswith b "/" then b
  else if String.eqb path "" || endswith path "/" then path ++ b
  else path ++ "/" ++ b.

(** [os.path.join(a, *p)]. *)
Definition os_path_join (a : string) (p : list string) : string :=
  fold_left join_step p a.

(** [enumerate(l)]. *)
Definition enumerate {A : Type} (l : list A) : list (nat * A) :=
  imap (fun i x => (i, x)) l.

(** [{x : i for i, x in enumerate(l)}]: a later occurrence of a key
    overwrites an earlier one. *)
Definition dict_of_enumerate (l : list string) : gmap string nat :=
  fold_left (fun d ix => <[ix.2 := ix.1]> d) (enumerate l) ∅.

(** The same comprehension started at index [k] with the dictionary [d];
    [dict_of_enumerate l] is [enum_from 0 l ∅]. *)
Definition enum_from (k : nat) (l : list string) (d : gmap string nat)
    : gmap string nat :=
  fold_left (fun d ix => <[ix.2 := ix.1]> d)
    (imap (fun i x => (k + i, x)%nat) l) d.

(** The first element of a list on which [f] is defined. *)
Fixpoint first_some {A B : Type} (f : A -> option B) (l : list A) : option B :=
  match l with
  | [] => None
  | x :: l' =>
      match f x with
      | Some b => Some b
      | None => first_some f l'
      end
  end.

End Py.

(** ** NumPy: arrays of samples and the pickled split record *)

Module Np.

(** A sample: the directory of its frames and its class label. *)
Definition Sample : Type := string * Z.

(** A two-dimensional array of strings, row by row. *)
Definition ndarray : Type := list (list string).

(** [np.array(split)] for a list of [(path, label)] tuples.  NumPy finds
    a common element type for the strings and the integers, which is a
    string type: the label is stored as its decimal representation.  An
    empty list gives an empty array. *)
Definition array (split : list Sample) : ndarray :=
  map (fun s : Sample => [s.1; Py.str s.2]) split.

End Np.

(** ** Scripts as trees of calls *)

Module Script.

Import Py.

Section Prog.
(** The calls a script can make, and the type of the answer of each. *)
Context {call : Type} {ret : call -> Type}.

(** A script either returns, raises, or performs a call and goes on
    with its answer. *)
Inductive prog (R : Type) : Type :=
| Return (r : R)
| Raise (e : exn)
| Call (c : call) (k : ret c -> prog R).

Global Arguments Return {R} r.
Global Arguments Raise {R} e.
Global Arguments Call {R} c k.

Fixpoint bind {A B : Type} (f : A -> prog B) (p : prog A) : prog B :=
  match p with
  | Return a => f a
  | Raise e => Raise e
  | Call c k => Call c (fun x => bind f (k x))
  end.

(** A single call. *)
Definition perform (c : call) : prog (ret c) := Call c Return.

(** A pure Python expression that may raise. *)
Definition lift {A : Type} (r : exn + A) : prog A :=
  match r with
  | inl e => Raise e
  | inr a => Return a
  end.

(** [for x in l: body(x)]. *)
Fixpoint for_each {A : Type} (l : list A) (body : A -> prog unit) : prog unit :=
  match l with
  | [] => Return tt
  | x :: l' => bind (fun _ => for_each l' body) (body x)
  end.

(** One entry of the log of a run: the call and how it was answered. *)
Record event : Type := Event {
  ev_call : call;
  ev_resp : exn + ret ev_call
}.

(** Whether the call of an event returned normally. *)
Definition ev_ok (e : event) : bool :=
  match ev_resp e with
  | inl _ => false
  | inr _ => true
  end.

(** The environment: it answers every call, from a state [W] of its
    own (file system, devices, random numbers, model parameters). *)
Definition handler (W : Type) : Type :=
  forall c : call, W -> (exn + ret c) * W.

(** The result of a run: value or exception, the final state of the
    environment, and the calls made in order. *)
Record outcome (W R : Type) : Type := Outcome {
  result : exn + R;
  final : W;
  trace : list event
}.

Global Arguments Outcome {W R} result final trace.
Global Arguments result {W R} o.
Global Arguments final {W R} o.
Global Arguments trace {W R} o.

(** A run that made the call of [e] and went on as [o]. *)
Definition after {W R : Type} (e : event) (o : outcome W R) : outcome W R :=
  Outcome (result o) (final o) (e :: trace o).

Fixpoint exec {W R : Type} (h : handler W) (p : prog R) (w : W) : outcome W R :=
  match p with
  | Return r => Outcome (inr r) w []
  | Raise e => Outcome (inl e) w []
  | Call c k =>
      match h c w with
      | (inl e, w') => Outcome (inl e) w' [Event c (inl e)]
      | (inr x, w') => after (Event c (inr x)) (exec h (k x) w')
      end
  end.

(** A run [o] followed, when it returned, by the run [k] of what
    comes next. *)
Definition and_then {W A B : Type} (o : outcome W A)
    (k : A -> W -> outcome W B) : outcome W B :=
  match result o with
  | inl e => Outcome (inl e) (final o) (trace o)
  | inr a =>
      Outcome (result (k a (final o))) (final (k a (final o)))
        (trace o ++ trace (k a (final o)))
  end.

(** The calls of a run, in order. *)
Definition calls {W R : Type} (o : outcome W R) : list call :=
  map ev_call (trace o).

(** Whether every call of a run returned normally. *)
Definition all_ok {W R : Type} (o : outcome W R) : bool :=
  forallb ev_ok (trace o).

End Prog.

Global Arguments prog {call} ret R.
Global Arguments after {call ret W R} e o : simpl never.
Global Arguments event {call} ret.
Global Arguments handler {call} ret W.

Global Instance prog_ret {call} {ret : call -> Type} : MRet (prog ret) :=
  fun _ r => Return r.
Global Instance prog_bind {call} {ret : call -> Type} : MBind (prog ret) :=
  fun _ _ f p => bind f p.

End Script.

(** ** [run.py] *)

Module run_py.

Import Py Np Script.

(** The value of [--pretrained]: the default [True], or the string
    given on the command line (the option has no [type]). *)
Inductive pretrained_val : Type :=
| PyTrue
| PyStr (s : string).

(** The command line after [argparse] has split it into options and
    converted the values with each option's [type]; [None] is an option
    that was not given.  Floats are rationals here. *)
Record argv : Type := Argv {
  given_frame_dir : option string;
  given_train_size : option Q;
  given_test_size : option Q;
  given_fr_per_vid : option Z;
  given_n_classes : option Z;
  given_ckpt : option string;
  given_model_type : option string;
  given_cnn_backbone : option string;
  given_pretrained : option string;
  given_rnn_hidden_size : option Z;
  given_rnn_n_layers : option Z;
  given_mode : option string;
  given_batch_size : option Z;
  given_dropout : option Q;
  given_learning_rate : option Q;
  given_n_epochs : option Z
}.

(** [argparse.Namespace] as returned by [args_parser]. *)
Record Namespace : Type := MkNamespace {
  frame_dir : option string;
  train_size : Q;
  test_size : Q;
  fr_per_vid : Z;
  n_classes : Z;
  ckpt : option string;
  model_type : string;
  cnn_backbone : string;
  pretrained : pretrained_val;
  rnn_hidden_size : Z;
  rnn_n_layers : Z;
  mode : string;
  batch_size : Z;
  dropout : Q;
  learning_rate : Q;
  n_epochs : Z
}.

(** The options declared with [required=True], in declaration order,
    each with the name [argparse] prints for it. *)
Definition missing_required (a : argv) : list string :=
  (if given_n_classes a is Some _ then [] else ["-nc/--n_classes"]) ++
  (if given_mode a is Some _ then [] else ["-m/--mode"]) ++
  (if given_batch_size a is Some _ then [] else ["-bs/--batch_size"]).

(** [", ".join(names)]. *)
Fixpoint join_comma (names : list string) : string :=
  match names with
  | [] => ""
  | [n] => n
  | n :: rest => n ++ ", " ++ join_comma rest
  end.

(** [args_parser()]: [parse_args] exits with status 2 when a required
    option is missing, and fills in the defaults of the others. *)
Definition args_parser (a : argv) : exn + Namespace :=
  match given_n_classes a, given_mode a, given_batch_size a with
  | Some nc, Some m, Some bs =>
      inr {| frame_dir := given_frame_dir a;
             train_size := default (7 # 10) (given_train_size a);
             test_size := default (1 # 10) (given_test_size a);
             fr_per_vid := default 16 (given_fr_per_vid a);
             n_classes := nc;
             ckpt := given_ckpt a;
             model_type := default "lrcn" (given_model_type a);
             cnn_backbone := default "resnet34" (given_cnn_backbone a);
             pretrained := from_option PyStr PyTrue (given_pretrained a);
             rnn_hidden_size := default 100 (given_rnn_hidden_size a);
             rnn_n_layers := default 1 (given_rnn_n_layers a);
             mode := m;
             batch_size := bs;
             dropout := default (1 # 10) (given_dropout a);
             learning_rate := default (3 # 100000) (given_learning_rate a);
             n_epochs := default 30 (given_n_epochs a) |}
  | _, _, _ =>
      inl (SystemExit 2 ("the following arguments are required: "
                           ++ join_comma (missing_required a)))
  end.

(** What [main] prints with [print]. *)
Inductive line : Type :=
| AccuracyLine (percent : Q)
    (* 'The overall test accuracy is {:.4f}%.'.format(percent) *)
| TextLine (s : string).

(** The split record written by [np.save] and read by [np.load]: a
    pickled dictionary from split names to arrays. *)
Abbreviation npy := (gmap string ndarray).

(** The calls [main] makes.  First the libraries, then the modules of
    the repository that [run.py] imports. *)
Inductive call : Type :=
| cuda_is_available
| CrossEntropyLoss (reduction : string)
| parameters (model : obj)
| Adam (params : obj) (lr : Q)
| ReduceLROnPlateau (opt : obj) (mode : string) (factor : Q)
    (patience verbose : Z)
| os_makedirs (path : string) (exist_ok : bool)
| to_device (model : obj) (device : string)
| np_save (file : string) (arr : npy)
| np_load (file : string) (allow_pickle : bool)
| torch_load (f : option string)
| load_state_dict (model state : obj)
| os_listdir (path : string)
| print (l : line)
| pprint (o : obj)
| transform_stats (model_type : string)
| compose_data_transforms (h w mean std : obj)
| LRCN (hidden_size n_layers : Z) (dropout_rate : Q) (n_classes : Z)
    (pretrained : pretrained_val) (cnn_model : string)
| load_dataset (frame_dir : option string)
| dataset_split (vid_dataset : list Sample) (tr_size ts_size : Q)
| VideoDataset (split : list Sample) (fr_per_vid : Z) (transforms : obj)
| train_val_dloaders (tr_dataset val_dataset : obj) (batch_size : Z)
    (model_type : string)
| test_dloaders (ts_dataset : obj) (batch_size : Z) (model_type : string)
| train (dataloaders model loss_func opt lr_scheduler : obj)
    (device optim_model_dir : string) (n_epochs : Z)
| test (model dataloader : obj) (device : string)
| get_test_report (targets outputs : obj) (all_cats : list string)
| get_confusion_matrix (targets outputs : obj) (labels_dict : gmap string nat)
    (all_cats : list string).

(** What each call returns. *)
Definition ret (c : call) : Type :=
  match c with
  | cuda_is_available => bool
  | CrossEntropyLoss _ | parameters _ | Adam _ _
  | ReduceLROnPlateau _ _ _ _ _ | torch_load _ | LRCN _ _ _ _ _ _
  | VideoDataset _ _ _ | train_val_dloaders _ _ _ _
  | get_test_report _ _ _ | get_confusion_matrix _ _ _ _ => obj
  | os_makedirs _ _ | to_device _ _ | np_save _ _ | load_state_dict _ _
  | print _ | pprint _ => unit
  | np_load _ _ => npy
  | os_listdir _ => list string
  | transform_stats _ => (obj * obj * obj * obj)%type
  | compose_data_transforms _ _ _ _ => (obj * obj)%type
  | load_dataset _ => (list Sample * gmap string nat)%type
  | dataset_split _ _ _ => (list Sample * list Sample * list Sample)%type
  | test_dloaders _ _ _ => gmap string obj
  | train _ _ _ _ _ _ _ _ => (obj * obj * obj)%type
  | test _ _ _ => (obj * obj * Q)%type
  end.

Abbreviation script := (prog ret).

(** [d[key]] on a dictionary. *)
Definition getitem {V : Type} (d : gmap string V) (key : string) : exn + V :=
  match d !! key with
  | Some v => inr v
  | None => inl (KeyError key)
  end.

(** [sample[i]] on a row of an array. *)
Definition row_item (sample : list string) (i : nat) : exn + string :=
  match sample !! i with
  | Some v => inr v
  | None => inl IndexError
  end.

(** [(sample[0], int(sample[1]))]. *)
Definition decode_sample (sample : list string) : exn + Sample :=
  match row_item sample 0 with
  | inl e => inl e
  | inr p =>
      match row_item sample 1 with
      | inl e => inl e
      | inr l =>
          match int l with
          | inl e => inl e
          | inr n => inr (p, n)
          end
      end
  end.

(** [[(sample[0], int(sample[1])) for sample in ts_split]]. *)
Fixpoint decode_split (ts_split : ndarray) : exn + list Sample :=
  match ts_split with
  | [] => inr []
  | sample :: rest =>
      match decode_sample sample with
      | inl e => inl e
      | inr s =>
          match decode_split rest with
          | inl e => inl e
          | inr ss => inr (s :: ss)
          end
      end
  end.

(** An array whose label column, the second, holds plain strings. *)
Definition labels_plain (arr : ndarray) : Prop :=
  Forall (fun row : list string =>
            forall digits, row !! 1%nat = Some digits -> plain digits = true)
    arr.

(** The dictionary [splits] built in train mode (lines 149-151). *)
Definition splits_record (tr_split val_split ts_split : list Sample) : npy :=
  <["test" := array ts_split]>
    (<["val" := array val_split]>
       (<["train" := array tr_split]> ∅)).

(** The message of the [ValueError] of the last branch. *)
Definition mode_message : string :=
  "The mode argument must be either " ++ dq ++ "train" ++ dq
    ++ " or " ++ dq ++ "eval" ++ dq ++ ".".

(** The train branch of [main] (lines 144-168). *)
Definition main_train (args : Namespace) (device : string)
    (tr_transforms val_ts_transforms model : obj) : script unit :=
  '(vid_dataset, label_dict) ← perform (load_dataset (frame_dir args));
  '(tr_split, val_split, ts_split) ←
    perform (dataset_split vid_dataset (train_size args) (test_size args));
  let splits := splits_record tr_split val_split ts_split in
  _ ← perform (np_save "./splits.npy" splits);
  tr_dataset ← perform (VideoDataset tr_split (fr_per_vid args) tr_transforms);
  val_dataset ← perform (VideoDataset val_split (fr_per_vid args) val_ts_transforms);
  dataloaders ←
    perform (train_val_dloaders tr_dataset val_dataset (batch_size args)
               (model_type args));
  loss_func ← perform (CrossEntropyLoss "sum");
  params ← perform (parameters model);
  opt ← perform (Adam params (learning_rate args));
  lr_scheduler ← perform (ReduceLROnPlateau opt "min" (1 # 2) 5 1);
  _ ← perform (os_makedirs "./models" true);
  let optim_model_dir := "./models" in
  _ ← perform (to_device model device);
  '(model', loss_hist, acc_hist) ←
    perform (train dataloaders model loss_func opt lr_scheduler device
               optim_model_dir (n_epochs args));
  mret tt.

(** The eval branch of [main] (lines 171-201). *)
Definition main_eval (args : Namespace) (device : string)
    (val_ts_transforms model : obj) : script unit :=
  splits ← perform (np_load "./splits.npy" true);
  ts_split ← lift (getitem splits "test");
  ts_split ← lift (decode_split ts_split);
  ts_dataset ← perform (VideoDataset ts_split (fr_per_vid args) val_ts_transforms);
  dataloaders ← perform (test_dloaders ts_dataset (batch_size args) (model_type args));
  state ← perform (torch_load (ckpt args));
  _ ← perform (load_state_dict model state);
  _ ← perform (to_device model device);
  test_loader ← lift (getitem dataloaders "test");
  '(targets, outputs, accuracy) ← perform (test model test_loader device);
  all_cats ← perform (os_listdir "UCF50");
  let labels_dict := dict_of_enumerate all_cats in
  _ ← perform (print (AccuracyLine (100 * accuracy)));
  test_report ← perform (get_test_report targets outputs all_cats);
  _ ← perform (print (TextLine "
Classification Report:"));
  _ ← perform (pprint test_report);
  confusion_matrix ←
    perform (get_confusion_matrix targets outputs labels_dict all_cats);
  _ ← perform (print (TextLine "
Confusion Matrix:"));
  _ ← perform (pprint confusion_matrix);
  mret tt.

(** [main(args)]. *)
Definition main (args : Namespace) : script unit :=
  cuda ← perform cuda_is_available;
  let device := if cuda : bool then "cuda:0" else "cpu" in
  '(h, w, mean, std) ← perform (transform_stats (model_type args));
  '(tr_transforms, val_ts_transforms) ←
    perform (compose_data_transforms h w mean std);
  model ←
    perform (LRCN (rnn_hidden_size args) (rnn_n_layers args) (dropout args)
               (n_classes args) (pretrained args) (cnn_backbone args));
  if String.eqb (mode args) "train" then
    main_train args device tr_transforms val_ts_transforms model
  else if String.eqb (mode args) "eval" then
    main_eval args device val_ts_transforms model
  else
    Raise (ValueError mode_message).

(** The [__main__] block: [args = args_parser(); main(args)]. *)
Definition run (a : argv) : script unit :=
  args ← lift (args_parser a);
  main args.

(** *** What a run of [main] shows

    Readings of the log of a run: the arguments of the calls that matter
    and the answers they got. *)

(** The three splits that [dataset_split] returned. *)
Definition split_of (e : event ret)
    : option (list Sample * list Sample * list Sample) :=
  match e with
  | Event c r =>
      match c as c0 return exn + ret c0 -> option (list Sample * list Sample * list Sample) with
      | dataset_split _ _ _ => fun r => if r is inr s then Some s else None
      | _ => fun _ => None
      end r
  end.

Definition split_produced (tr : list (event ret)) :=
  first_some split_of tr.

(** The file and the record given to [np.save]. *)
Definition saved_of (c : call) : option (string * npy) :=
  match c with
  | np_save f a => Some (f, a)
  | _ => None
  end.

Definition record_saved (cs : list call) := first_some saved_of cs.

(** The file read by [np.load] and the record it returned. *)
Definition loaded_of (e : event ret) : option (string * npy) :=
  match e with
  | Event c r =>
      match c as c0 return exn + ret c0 -> option (string * npy) with
      | np_load f _ => fun r => if r is inr a then Some (f, a) else None
      | _ => fun _ => None
      end r
  end.

Definition record_loaded (tr : list (event ret)) := first_some loaded_of tr.

(** The split a [VideoDataset] is built from. *)
Definition dataset_of (c : call) : option (list Sample) :=
  match c with
  | VideoDataset split _ _ => Some split
  | _ => None
  end.

Definition test_split_used (cs : list call) := first_some dataset_of cs.

(** The label dictionary that [load_dataset] returned. *)
Definition built_of (e : event ret) : option (gmap string nat) :=
  match e with
  | Event c r =>
      match c as c0 return exn + ret c0 -> option (gmap string nat) with
      | load_dataset _ => fun r => if r is inr (_, d) then Some d else None
      | _ => fun _ => None
      end r
  end.

Definition labels_built (tr : list (event ret)) := first_some built_of tr.

(** The directory listed by [os.listdir] and its entries. *)
Definition listed_of (e : event ret) : option (string * list string) :=
  match e with
  | Event c r =>
      match c as c0 return exn + ret c0 -> option (string * list string) with
      | os_listdir p => fun r => if r is inr l then Some (p, l) else None
      | _ => fun _ => None
      end r
  end.

Definition categories_listed (tr : list (event ret)) := first_some listed_of tr.

(** The label dictionary and the class names given to
    [get_confusion_matrix]. *)
Definition reported_of (c : call) : option (gmap string nat * list string) :=
  match c with
  | get_confusion_matrix _ _ d cats => Some (d, cats)
  | _ => None
  end.

Definition labels_reported (cs : list call) := first_some reported_of cs.

(** The class names given to [get_test_report]. *)
Definition names_of (c : call) : option (list string) :=
  match c with
  | get_test_report _ _ cats => Some cats
  | _ => None
  end.

Definition names_reported (cs : list call) := first_some names_of cs.

(** The reduction a loss function is created with. *)
Definition reduction_of (c : call) : option string :=
  match c with
  | CrossEntropyLoss r => Some r
  | _ => None
  end.

(** The reduction and the loss function that [nn.CrossEntropyLoss]
    returned. *)
Definition loss_of (e : event ret) : option (string * obj) :=
  match e with
  | Event c r =>
      match c as c0 return exn + ret c0 -> option (string * obj) with
      | CrossEntropyLoss red => fun r => if r is inr f then Some (red, f) else None
      | _ => fun _ => None
      end r
  end.

Definition loss_created (tr : list (event ret)) := first_some loss_of tr.

(** The loss function given to [train]. *)
Definition trained_with_of (c : call) : option obj :=
  match c with
  | train _ _ loss_func _ _ _ _ _ => Some loss_func
  | _ => None
  end.

Definition trained_with (cs : list call) := first_some trained_with_of cs.

(** The calls before the branch on [mode]. *)
Definition is_setup (c : call) : bool :=
  match c with
  | cuda_is_available | transform_stats _ | compose_data_transforms _ _ _ _
  | LRCN _ _ _ _ _ _ => true
  | _ => false
  end.

Definition is_model_construction (c : call) : bool :=
  match c with
  | LRCN _ _ _ _ _ _ => true
  | _ => false
  end.

(** The print of the overall accuracy. *)
Definition is_accuracy_line (c : call) : bool :=
  match c with
  | print (AccuracyLine _) => true
  | _ => false
  end.

(** The calls that receive the class names or the label dictionary. *)
Definition uses_labels (c : call) : bool :=
  match c with
  | get_test_report _ _ _ | get_confusion_matrix _ _ _ _ => true
  | _ => false
  end.

(** No call receives the labels before the accuracy is printed. *)
Fixpoint accuracy_first (cs : list call) : bool :=
  match cs with
  | [] => true
  | c :: cs' =>
      if is_accuracy_line c then true
      else negb (uses_labels c) && accuracy_first cs'
  end.

(** The exceptions the eval branch raises itself: a split record without
    the key, a row that is too short or a label that is no integer, and
    a loader dictionary without the key. *)
Definition own_error (e : exn) : bool :=
  match e with
  | KeyError k => String.eqb k "test"
  | IndexError => true
  | ValueError msg => String.prefix "invalid literal for int()" msg
  | _ => false
  end.

(** [args] with another model type. *)
Definition with_model_type (mt : string) (args : Namespace) : Namespace :=
  {| frame_dir := frame_dir args;
     train_size := train_size args;
     test_size := test_size args;
     fr_per_vid := fr_per_vid args;
     n_classes := n_classes args;
     ckpt := ckpt args;
     model_type := mt;
     cnn_backbone := cnn_backbone args;
     pretrained := pretrained args;
     rnn_hidden_size := rnn_hidden_size args;
     rnn_n_layers := rnn_n_layers args;
     mode := mode args;
     batch_size := batch_size args;
     dropout := dropout args;
     learning_rate := learning_rate args;
     n_epochs := n_epochs args |}.

(** An environment whose answers to the three calls that take the model
    type do not depend on it. *)
Definition blind {W : Type} (h : handler ret W) : Prop :=
  (forall mt mt' w, h (transform_stats mt) w = h (transform_stats mt') w) ∧
  (forall a b bs mt mt' w,
      h (train_val_dloaders a b bs mt) w = h (train_val_dloaders a b bs mt') w) ∧
  (forall a bs mt mt' w,
      h (test_dloaders a bs mt) w = h (test_dloaders a bs mt') w).

(** A call without its model type. *)
Definition forget_model_type (c : call) : call :=
  match c with
  | transform_stats _ => transform_stats ""
  | train_val_dloaders a b bs _ => train_val_dloaders a b bs ""
  | test_dloaders a bs _ => test_dloaders a bs ""
  | _ => c
  end.

(** The keys of a well-formed split record. *)
Definition split_keys : gset string := {[ "train"; "val"; "test" ]}.

(** *** Further readings of a run *)

(** The calls only the train branch makes. *)
Definition is_train_call (c : call) : bool :=
  match c with
  | load_dataset _ | dataset_split _ _ _ | np_save _ _
  | train_val_dloaders _ _ _ _ | CrossEntropyLoss _ | parameters _
  | Adam _ _ | ReduceLROnPlateau _ _ _ _ _ | os_makedirs _ _
  | train _ _ _ _ _ _ _ _ => true
  | _ => false
  end.

(** The calls only the eval branch makes. *)
Definition is_eval_call (c : call) : bool :=
  match c with
  | np_load _ _ | test_dloaders _ _ _ | torch_load _ | load_state_dict _ _
  | test _ _ _ | os_listdir _ | print _ | pprint _
  | get_test_report _ _ _ | get_confusion_matrix _ _ _ _ => true
  | _ => false
  end.

(** The device a call is given. *)
Definition device_of (c : call) : option string :=
  match c with
  | to_device _ d | train _ _ _ _ _ d _ _ | test _ _ d => Some d
  | _ => None
  end.

(** The answer of [torch.cuda.is_available]. *)
Definition cuda_of (e : event ret) : option bool :=
  match e with
  | Event c r =>
      match c as c0 return exn + ret c0 -> option bool with
      | cuda_is_available => fun r => if r is inr b then Some b else None
      | _ => fun _ => None
      end r
  end.

Definition cuda_answer (tr : list (event ret)) := first_some cuda_of tr.

(** [args] with other values for the options the eval branch does not
    read. *)
Definition with_training_options (fd : option string) (trs tss lr : Q)
    (ne : Z) (args : Namespace) : Namespace :=
  {| frame_dir := fd;
     train_size := trs;
     test_size := tss;
     fr_per_vid := fr_per_vid args;
     n_classes := n_classes args;
     ckpt := ckpt args;
     model_type := model_type args;
     cnn_backbone := cnn_backbone args;
     pretrained := pretrained args;
     rnn_hidden_size := rnn_hidden_size args;
     rnn_n_layers := rnn_n_layers args;
     mode := mode args;
     batch_size := batch_size args;
     dropout := dropout args;
     learning_rate := lr;
     n_epochs := ne |}.

(** [args] with another checkpoint path. *)
Definition with_ckpt (c : option string) (args : Namespace) : Namespace :=
  {| frame_dir := frame_dir args;
     train_size := train_size args;
     test_size := test_size args;
     fr_per_vid := fr_per_vid args;
     n_classes := n_classes args;
     ckpt := c;
     model_type := model_type args;
     cnn_backbone := cnn_backbone args;
     pretrained := pretrained args;
     rnn_hidden_size := rnn_hidden_size args;
     rnn_n_layers := rnn_n_layers args;
     mode := mode args;
     batch_size := batch_size args;
     dropout := dropout args;
     learning_rate := learning_rate args;
     n_epochs := n_epochs args |}.

(** The device string of line 133. *)
Definition device_name (cuda : bool) : string :=
  if cuda then "cuda:0" else "cpu".

End run_py.



(** ** [preprocess.py] *)

Module preprocess_py.

Import Py Script.

(** What [preprocess_video] prints. *)
Definition line : Type := string.

(** The calls of [preprocess_video]: the operating system, and
    [get_frames] and [store_frames] of the module [utils]. *)
Inductive call : Type :=
| os_path_exists (path : string)
| os_makedirs (path : string) (exist_ok : bool)
| os_listdir (path : string)
| print (l : line)
| get_frames (vid_path : string) (n_frames : Z)
| store_frames (frames : obj) (store_path : string).

(** What each call returns. *)
Definition ret (c : call) : Type :=
  match c with
  | os_path_exists _ => bool
  | os_makedirs _ _ | print _ | store_frames _ _ => unit
  | os_listdir _ => list string
  | get_frames _ _ => (obj * Z)%type
  end.

Abbreviation script := (prog ret).

(** The body of the inner loop (lines 43-49), for one directory entry. *)
Definition process_file (video_dir store_path dir filename : string) : script unit :=
  if endswith filename ".avi" then
    _ ← perform (print filename);
    let vid_path := os_path_join video_dir [dir; filename] in
    '(frames, v_len) ← perform (get_frames vid_path 16);
    let store_path_spec :=
      os_path_join store_path [dir; split_head "." filename] in
    _ ← perform (os_makedirs store_path_spec true);
    perform (store_frames frames store_path_spec)
  else
    mret tt.

(** The body of the outer loop (lines 41-49), for one class folder. *)
Definition process_dir (video_dir store_path dir : string) : script unit :=
  _ ← perform (print dir);
  filenames ← perform (os_listdir (os_path_join video_dir [dir]));
  for_each filenames (process_file video_dir store_path dir).

(** [preprocess_video(store_path)]; [root] is the directory of the
    script, [os.path.dirname(os.path.abspath(__file__))]. *)
Definition preprocess_video (root store_path : string) : script unit :=
  let video_dir := os_path_join root ["UCF50_video"] in
  exists_ ← perform (os_path_exists store_path);
  _ ← (if exists_ : bool then mret tt
       else perform (os_makedirs store_path false));
  dirs ← perform (os_listdir video_dir);
  for_each dirs (process_dir video_dir store_path).

(** What the claim about [preprocess_video] says of a call: frames are
    requested, sixteen of them, only from a file below [video_dir] whose
    name ends in [.avi], and stored only under [store_path], in the folder
    of the class and of the part of the file name before the first dot. *)
Definition well_placed (video_dir store_path : string) (c : call) : Prop :=
  match c with
  | get_frames p n =>
      n = 16 ∧ exists dir f,
        endswith f ".avi" = true ∧ p = os_path_join video_dir [dir; f]
  | store_frames _ p =>
      exists dir f,
        endswith f ".avi" = true
        ∧ p = os_path_join store_path [dir; split_head "." f]
  | os_makedirs p true =>
      exists dir f,
        endswith f ".avi" = true
        ∧ p = os_path_join store_path [dir; split_head "." f]
  | os_makedirs p false => p = store_path
  | _ => True
  end.

(** The log of the loop body for one video when its four calls
    returned: the name is printed, sixteen frames are requested from the
    file, the folder of the video is created if it does not exist, and
    the frames obtained are stored in it. *)
Definition extracted (video_dir store_path dir filename : string)
    (frames : obj) (v_len : Z) : list (event ret) :=
  let target := os_path_join store_path [dir; split_head "." filename] in
  [Event (print filename) (inr tt);
   Event (get_frames (os_path_join video_dir [dir; filename]) 16)
     (inr (frames, v_len));
   Event (os_makedirs target true) (inr tt);
   Event (store_frames frames target) (inr tt)].

(** What a run of [preprocess_video] that returned has done: the video
    folder was listed and, for every class folder in it, the folder was
    listed and, for every [.avi] file in it, the log holds the four calls
    for that file, one after the other. *)
Definition all_extracted (video_dir store_path : string)
    (t : list (event ret)) : Prop :=
  exists dirs,
    Event (os_listdir video_dir) (inr dirs) ∈ t
    ∧ forall dir, dir ∈ dirs ->
        exists filenames,
          Event (os_listdir (os_path_join video_dir [dir])) (inr filenames) ∈ t
          ∧ forall f, f ∈ filenames -> endswith f ".avi" = true ->
              exists frames v_len pre post,
                t = (pre ++ extracted video_dir store_path dir f frames v_len
                         ++ post)%list.

(** The folders listed in a log, each with the names found in it. *)
Definition listings (t : list (event ret)) : list (string * list string) :=
  omap (fun e : event ret =>
          match e with
          | Event c r =>
              match c as c0 return exn + ret c0 -> option (string * list string) with
              | os_listdir p => fun r => if r is inr l then Some (p, l) else None
              | _ => fun _ => None
              end r
          end) t.

(** A small tree of videos to run the script on: the state is the list
    of directories created so far. *)
Definition tree_env : handler ret (list string) := fun c =>
  match c as c0 return list string -> (exn + ret c0) * list string with
  | os_path_exists p => fun w => (inr (bool_decide (p ∈ w)), w)
  | os_makedirs p _ => fun w => (inr tt, p :: w)
  | os_listdir p => fun w =>
      if String.eqb p "/repo/UCF50_video" then (inr ["Biking"; "Diving"], w)
      else if String.eqb p "/repo/UCF50_video/Biking"
      then (inr ["v_Biking_g01_c01.avi"; "notes.txt"; "v.old.avi"], w)
      else if String.eqb p "/repo/UCF50_video/Diving" then (inr [], w)
      else (inl (Exception "FileNotFoundError" p), w)
  | print _ => fun w => (inr tt, w)
  | get_frames p _ => fun w => (inr (Obj (String.length p), 100), w)
  | store_frames _ _ => fun w => (inr tt, w)
  end.

(** The [__main__] block (lines 52-55): the frames go to the folder
    [UCF50] beside the script, and the last line is printed when
    [preprocess_video] has returned. *)
Definition main_block (root : string) : script unit :=
  let store_path := os_path_join root ["UCF50"] in
  _ ← preprocess_video root store_path;
  perform (print ("Frames extracted and stored in " ++ store_path)).

(** A run whose calls all returned, or whose last call raised the
    exception the run ends with, all earlier ones having returned. *)
Definition stops_at_failure {W R : Type} (o : outcome (ret:=ret) W R) : Prop :=
  (all_ok o = true ∧ exists r, result o = inr r)
  ∨ (exists pre c e,
       trace o = (pre ++ [Event c (inl e)])%list
       ∧ result o = inl e
       ∧ forallb ev_ok pre = true).

End preprocess_py.

(** ** [video_datasets.py]: the dataset splitter *)

Module video_datasets_py.

Import Py Np.

(** Modelled from the spec: the helper that shuffles the sample list
    inside [dataset_split]; [video_datasets.py] is not among the sources.
    The random draws are an input, so that the same draws give the same
    order.  Each step takes the element at position [draw mod length]
    out of what is left. *)
Fixpoint shuffle_n {A : Type} (n : nat) (draws : list nat) (l : list A) : list A :=
  match n with
  | O => []
  | S n' =>
      let i := (hd 0%nat draws mod length l)%nat in
      match l !! i with
      | Some x => x :: shuffle_n n' (tl draws) (delete i l)
      | None => []
      end
  end.

Definition shuffle {A : Type} (draws : list nat) (l : list A) : list A :=
  shuffle_n (length l) draws l.

(** The number of samples a proportion stands for.  The spec does not
    say how a share that is no whole number is rounded: the rounding,
    from the exact share to a number of samples, is a parameter. *)
Definition share (round : Q -> Z) (size : Q) (n : nat) : nat :=
  Z.to_nat (round (size * inject_Z (Z.of_nat n))%Q).

Definition InvalidProportionError : exn :=
  Exception "InvalidProportionError" "".

(** Modelled from the spec: [dataset_split] of [video_datasets.py], which
    is not among the sources (section 4.2).  The list is shuffled; the
    first [train_size] share is the training split, the next [test_size]
    share the test split, and the remainder the validation split.  It
    fails when a proportion is negative, when the two exceed 1 together,
    or when the training split would be empty.  The result is in the
    order of the call in [run.py]: train, val, test. *)
Definition dataset_split (round : Q -> Z) (draws : list nat)
    (vid_dataset : list Sample) (tr_size ts_size : Q)
    : exn + (list Sample * list Sample * list Sample) :=
  if Qlt_le_dec tr_size 0 then inl InvalidProportionError
  else if Qlt_le_dec ts_size 0 then inl InvalidProportionError
  else if Qlt_le_dec 1 (tr_size + ts_size) then inl InvalidProportionError
  else
    let n := length vid_dataset in
    let n_train := share round tr_size n in
    let n_test := share round ts_size n in
    if (n_train =? 0)%nat then inl InvalidProportionError
    else
      let shuffled := shuffle draws vid_dataset in
      let tr_split := take n_train shuffled in
      let ts_split := take n_test (drop n_train shuffled) in
      let val_split := drop n_test (drop n_train shuffled) in
      inr (tr_split, val_split, ts_split).

End video_datasets_py.

(** ** [train.py]: the training loop *)

Module train_py.

(** [reduction] of [nn.CrossEntropyLoss]. *)
Inductive reduction : Type :=
| Sum
| Mean.

(** The reduction that [run.py] asks for on line 160, by its name. *)
Definition reduction_of_string (s : string) : option reduction :=
  if String.eqb s "sum" then Some Sum
  else if String.eqb s "mean" then Some Mean
  else None.

(** One entry of the metric history. *)
Record metrics : Type := Metrics {
  train_loss : Q;
  val_loss : Q;
  train_acc : Q;
  val_acc : Q
}.

Section Loop.
(** The model and the optimisation are external: the parameters
    [Params], a sample [X], the cross-entropy of one sample, whether the
    model classifies a sample correctly, the effect of one optimizer
    step on a batch, and the learning-rate scheduler. *)
Context {Params X Sched : Type}.
Variable sample_loss : Params -> X -> Q.
Variable correct : Params -> X -> bool.
Variable opt_step : Q -> Params -> list X -> Params.
Variable sched_lr : Sched -> Q.
Variable sched_step : Sched -> Q -> Sched.

Definition Qsum (l : list Q) : Q := fold_right Qplus 0%Q l.

Definition Qnat (n : nat) : Q := inject_Z (Z.of_nat n).

(** The loss of a batch under a reduction. *)
Definition loss_func (r : reduction) (p : Params) (batch : list X) : Q :=
  let total := Qsum (map (sample_loss p) batch) in
  match r with
  | Sum => total
  | Mean => (total / Qnat (length batch))%Q
  end.

Definition count_correct (p : Params) (batch : list X) : nat :=
  length (filter (fun x => correct p x = true) batch).

(** [len(dataloader.dataset)]. *)
Definition dataset_size (batches : list (list X)) : nat :=
  length (concat batches).

(** The running totals of a phase. *)
Record totals : Type := Totals {
  params_now : Params;
  running_loss : Q;
  running_corrects : nat
}.

(** Modelled from the spec: the training phase of [train] in
    [train.py], which is not among the sources (section 4.5, step 1).
    Every batch once: loss of the batch, optimizer step, running loss
    and count of correct predictions. *)
Definition train_batch (r : reduction) (lr : Q) (t : totals) (batch : list X)
    : totals :=
  let p := params_now t in
  {| params_now := opt_step lr p batch;
     running_loss := (running_loss t + loss_func r p batch)%Q;
     running_corrects := (running_corrects t + count_correct p batch)%nat |}.

Definition train_phase (r : reduction) (lr : Q) (p : Params)
    (batches : list (list X)) : totals :=
  fold_left (train_batch r lr) batches (Totals p 0%Q 0%nat).

(** Modelled from the spec: the validation phase of [train] (section
    4.5, step 2): the same sums, no parameter update. *)
Definition val_batch (r : reduction) (t : totals) (batch : list X) : totals :=
  let p := params_now t in
  {| params_now := p;
     running_loss := (running_loss t + loss_func r p batch)%Q;
     running_corrects := (running_corrects t + count_correct p batch)%nat |}.

Definition val_phase (r : reduction) (p : Params) (batches : list (list X))
    : totals :=
  fold_left (val_batch r) batches (Totals p 0%Q 0%nat).

(** The per-sample losses of one pass over the training batches, in
    the order the samples are seen, each under the parameters in force
    when its batch is processed. *)
Fixpoint losses_seen (lr : Q) (p : Params) (batches : list (list X)) : list Q :=
  match batches with
  | [] => []
  | b :: bs => map (sample_loss p) b ++ losses_seen lr (opt_step lr p b) bs
  end.

(** The loss reported for an epoch: the running loss over the size of
    the dataset. *)
Definition epoch_loss (t : totals) (batches : list (list X)) : Q :=
  (running_loss t / Qnat (dataset_size batches))%Q.

Definition epoch_acc (t : totals) (batches : list (list X)) : Q :=
  (Qnat (running_corrects t) / Qnat (dataset_size batches))%Q.

(** The state of a run: the model, the scheduler, the lowest
    validation loss so far ([None] before the first epoch), the
    checkpoint file ([None] while nothing is written), the history. *)
Record state : Type := State {
  params : Params;
  sched : Sched;
  best_loss : option Q;
  checkpoint : option Params;
  history : list metrics
}.

(** Whether a validation loss is lower than every one before. *)
Definition improves (best : option Q) (loss : Q) : bool :=
  match best with
  | None => true
  | Some b => if Qlt_le_dec loss b then true else false
  end.

(** Modelled from the spec: one epoch of [train] (section 4.5, steps
    1 to 4): training phase, validation phase, checkpoint decision and
    scheduler update, and the four metrics appended to the history. *)
Definition epoch (r : reduction) (tr_batches val_batches : list (list X))
    (s : state) : state :=
  let t := train_phase r (sched_lr (sched s)) (params s) tr_batches in
  let p := params_now t in
  let v := val_phase r p val_batches in
  let m := {| train_loss := epoch_loss t tr_batches;
              val_loss := epoch_loss v val_batches;
              train_acc := epoch_acc t tr_batches;
              val_acc := epoch_acc v val_batches |} in
  let better := improves (best_loss s) (val_loss m) in
  {| params := p;
     sched := sched_step (sched s) (val_loss m);
     best_loss := if better then Some (val_loss m) else best_loss s;
     checkpoint := if better then Some p else checkpoint s;
     history := history s ++ [m] |}.

(** Modelled from the spec: [train] of [train.py] for [n_epochs]
    epochs, from freshly initialised parameters and scheduler. *)
Fixpoint run_epochs (r : reduction) (tr_batches val_batches : list (list X))
    (n_epochs : nat) (s : state) : state :=
  match n_epochs with
  | O => s
  | S n => epoch r tr_batches val_batches
             (run_epochs r tr_batches val_batches n s)
  end.

Definition train (r : reduction) (tr_batches val_batches : list (list X))
    (p0 : Params) (s0 : Sched) (n_epochs : nat) : state :=
  run_epochs r tr_batches val_batches n_epochs (State p0 s0 None None []).

(** After the run [s], epoch [k] holds the least validation loss, is
    the earliest to do so, and its parameters are the checkpoint;
    [at_epoch n] is the state after [n] epochs. *)
Definition best_at (s : state) (at_epoch : nat -> state) (k : nat) : Prop :=
  exists m,
    history s !! k = Some m
    ∧ checkpoint s = Some (params (at_epoch (S k)))
    ∧ best_loss s = Some (val_loss m)
    ∧ (forall j m', history s !! j = Some m' -> (val_loss m <= val_loss m')%Q)
    ∧ (forall j m', (j < k)%nat -> history s !! j = Some m' ->
                    (val_loss m < val_loss m')%Q).

End Loop.

(** A run to try the loop on: the parameter is one number, a sample is a
    number, its loss the squared distance to the parameter, and a step
    moves the parameter by the learning rate. *)
Definition toy_train (n_epochs : nat) : state (Params:=Q) (Sched:=Q) :=
  train (fun p x => (p - x) * (p - x))%Q (fun p x => Qeq_bool p x)
    (fun lr p _ => (p + lr)%Q) (fun s => s) (fun s _ => s)
    Sum [[1; 2]; [3]]%Q [[2]]%Q 0%Q 1%Q n_epochs.

End train_py.

(** ** [test.py]: the evaluation engine *)

Module test_py.

Import Py.

Section Engine.
(** The model is external: its parameters and, for a sample and a
    class index below [n_out], the logit of that class.  [n_out] is the
    output dimensionality of the checkpoint. *)
Context {Params X : Type}.
Variable n_out : nat.
Variable logit : Params -> X -> nat -> Q.

(** The index below [n] of the largest value, the first one among
    equals; [0] when [n] is [0]. *)
Fixpoint argmax (f : nat -> Q) (n : nat) : nat :=
  match n with
  | O => O
  | S n' =>
      let best := argmax f n' in
      match n' with
      | O => O
      | S _ => if Qlt_le_dec (f best) (f n') then n' else best
      end
  end.

Definition predict (p : Params) (x : X) : nat := argmax (logit p x) n_out.

Definition count_equal (targets outputs : list nat) : nat :=
  length (filter (fun to : nat * nat => to.1 = to.2) (zip targets outputs)).

Definition ZeroDivisionError : exn := Exception "ZeroDivisionError" "division by zero".

(** Modelled from the spec: [test] of [test.py], which is not among
    the sources (section 4.6).  One pass over the test split records the
    true label and the predicted class of every sample; the accuracy is
    the number of correct predictions over the number of samples. *)
Definition test (p : Params) (dataset : list (X * nat))
    : exn + (list nat * list nat * Q) :=
  let targets := map snd dataset in
  let outputs := map (fun s => predict p s.1) dataset in
  match dataset with
  | [] => inl ZeroDivisionError
  | _ :: _ =>
      inr (targets, outputs,
           (inject_Z (Z.of_nat (count_equal targets outputs))
              / inject_Z (Z.of_nat (length dataset)))%Q)
  end.

(** The number of samples with true class [i] and predicted class [j]. *)
Definition cell (targets outputs : list nat) (i j : nat) : nat :=
  length (filter (fun to : nat * nat => to.1 = i ∧ to.2 = j)
            (zip targets outputs)).

Definition LabelMismatchError : exn := Exception "LabelMismatchError" "".

(** Modelled from the spec: [get_confusion_matrix] of [test.py]
    (section 4.6): rows are true classes, columns predicted classes, in
    the order of the class indices; [all_cats] only names the rows.  It
    fails when the dictionary does not have as many classes as the model
    has outputs. *)
Definition get_confusion_matrix (targets outputs : list nat)
    (labels_dict : gmap string nat) (all_cats : list string)
    : exn + list (list nat) :=
  if decide (size labels_dict = n_out) then
    inr (map (fun i => map (cell targets outputs i) (seq 0 n_out)) (seq 0 n_out))
  else inl LabelMismatchError.

End Engine.

(** A model to try the engine on: whatever the sample, class 0 has the
    largest logit. *)
Definition constant_logit (p : unit) (x : nat) (j : nat) : Q :=
  if (j =? 0)%nat then 1%Q else 0%Q.

(** Ten samples with the true labels 0,0,1,1,0,1,0,1,0,0. *)
Definition ten_samples : list (nat * nat) :=
  imap (fun i l => (i, l)) [0; 0; 1; 1; 0; 1; 0; 1; 0; 0]%nat.

End test_py.

(** ** A small concrete environment

    Used to run the scripts on concrete inputs: a file store for
    [np.save] and [np.load], directory listings for [os.listdir], a
    dataset of ten samples in two classes, and a checkpoint of a model
    with two outputs. *)

Module demo.

Import Py Np Script run_py.

Record world : Type := World {
  files : gmap string npy;
  listing : gmap string (list string)
}.

Definition FileNotFoundError (path : string) : exn :=
  Exception "FileNotFoundError" path.

(** Ten samples, alternating between the classes 0 and 1. *)
Definition samples : list Sample :=
  map (fun i : nat =>
         let l := Z.of_nat (i mod 2) in
         ("frames/c" ++ str l ++ "/v" ++ str (Z.of_nat i), l))
      (seq 0 10).


Definition label_dict : gmap string nat := {[ "c0" := 0%nat; "c1" := 1%nat ]}.

(** The number of outputs of the model in the checkpoint. *)
Definition ckpt_outputs : nat := 2.

Definition env : handler ret world := fun c =>
  match c as c0 return world -> (exn + ret c0) * world with
  | cuda_is_available => fun w => (inr false, w)
  | CrossEntropyLoss _ => fun w => (inr (Obj 10), w)
  | parameters _ => fun w => (inr (Obj 11), w)
  | Adam _ _ => fun w => (inr (Obj 12), w)
  | ReduceLROnPlateau _ _ _ _ _ => fun w => (inr (Obj 13), w)
  | run_py.os_makedirs _ _ => fun w => (inr tt, w)
  | to_device _ _ => fun w => (inr tt, w)
  | np_save f a => fun w => (inr tt, World (<[f := a]> (files w)) (listing w))
  | np_load f _ => fun w =>
      match files w !! f with
      | Some a => (inr a, w)
      | None => (inl (FileNotFoundError f), w)
      end
  | torch_load _ => fun w => (inr (Obj 14), w)
  | load_state_dict _ _ => fun w => (inr tt, w)
  | run_py.os_listdir p => fun w =>
      match listing w !! p with
      | Some l => (inr l, w)
      | None => (inl (FileNotFoundError p), w)
      end
  | run_py.print _ => fun w => (inr tt, w)
  | pprint _ => fun w => (inr tt, w)
  | transform_stats _ => fun w => (inr (Obj 1, Obj 2, Obj 3, Obj 4), w)
  | compose_data_transforms _ _ _ _ => fun w => (inr (Obj 5, Obj 6), w)
  | LRCN _ _ _ _ _ _ => fun w => (inr (Obj 7), w)
  | load_dataset _ => fun w => (inr (samples, label_dict), w)
  | dataset_split ds tr ts => fun w =>
      (video_datasets_py.dataset_split Qfloor [3; 1; 4; 1; 5]%nat ds tr ts, w)
  | VideoDataset _ _ _ => fun w => (inr (Obj 8), w)
  | train_val_dloaders _ _ _ _ => fun w => (inr (Obj 9), w)
  | test_dloaders _ _ _ => fun w => (inr {[ "test" := Obj 15 ]}, w)
  | train _ _ _ _ _ _ _ _ => fun w => (inr (Obj 7, Obj 16, Obj 17), w)
  | test _ _ _ => fun w => (inr (Obj 18, Obj 19, 1 # 2), w)
  | get_test_report _ _ all_cats => fun w =>
      if decide (length all_cats = ckpt_outputs) then (inr (Obj 20), w)
      else (inl test_py.LabelMismatchError, w)
  | get_confusion_matrix _ _ labels_dict _ => fun w =>
      if decide (size labels_dict = ckpt_outputs) then (inr (Obj 21), w)
      else (inl test_py.LabelMismatchError, w)
  end.

(** A command line: [-nc 2 -bs 4 -fd frames -m <mode>]. *)
Definition command (m : string) : argv :=
  {| given_frame_dir := Some "frames";
     given_train_size := None;
     given_test_size := None;
     given_fr_per_vid := None;
     given_n_classes := Some 2;
     given_ckpt := Some "./models/weights.pt";
     given_model_type := None;
     given_cnn_backbone := None;
     given_pretrained := None;
     given_rnn_hidden_size := None;
     given_rnn_n_layers := None;
     given_mode := Some m;
     given_batch_size := Some 4;
     given_dropout := None;
     given_learning_rate := None;
     given_n_epochs := None |}.

(** The parsed form of [command m]. *)
Definition arguments (m : string) : Namespace :=
  {| frame_dir := Some "frames";
     train_size := 7 # 10;
     test_size := 1 # 10;
     fr_per_vid := 16;
     n_classes := 2;
     ckpt := Some "./models/weights.pt";
     model_type := "lrcn";
     cnn_backbone := "resnet34";
     pretrained := PyTrue;
     rnn_hidden_size := 100;
     rnn_n_layers := 1;
     mode := m;
     batch_size := 4;
     dropout := 1 # 10;
     learning_rate := 3 # 100000;
     n_epochs := 30 |}.

(** The frames are under [frames]; the directory [UCF50] lists the two
    classes in the other order. *)
Definition start : world :=
  World ∅ {[ "frames" := ["c0"; "c1"]; "UCF50" := ["c1"; "c0"] ]}.

(** The same, but [UCF50] holds a single class. *)
Definition start_one_class : world :=
  World ∅ {[ "frames" := ["c0"; "c1"]; "UCF50" := ["c0"] ]}.

End demo.

(** * Properties *)

Local Open Scope list_scope.

(** ** Python built-ins *)

Section PyFacts.
Import Py Np.

Lemma to_int_not_nil (z : Z) :
  Z.to_int z <> Decimal.Pos Decimal.Nil /\ Z.to_int z <> Decimal.Neg Decimal.Nil.
Proof.
  destruct z as [|p|p]; cbn; split; try discriminate;
    intros H; injection H as H; exact (Unsigned.to_uint_nonnil p H).
Qed.

Lemma string_of_uint_digits (d : Decimal.uint) :
  all_digits (NilEmpty.string_of_uint d) = true.
Proof. induction d; cbn; auto. Qed.

Lemma string_of_uint_nonempty (d : Decimal.uint) :
  d <> Decimal.Nil -> NilEmpty.string_of_uint d <> EmptyString.
Proof. destruct d; [congruence|discriminate..]. Qed.

Lemma digit_no_space c : is_digit c = true -> is_space c = false.
Proof.
  unfold is_digit, is_space. generalize (nat_of_ascii c). intros n H.
  apply andb_true_iff in H as [H1 H2].
  apply Nat.leb_le in H1. apply Nat.leb_le in H2.
  apply orb_false_iff. split.
  - apply Nat.eqb_neq. lia.
  - apply andb_false_iff. right. apply Nat.leb_gt. lia.
Qed.

Lemma digit_no_sign c :
  is_digit c = true -> c <> "-"%char /\ c <> "+"%char /\ Ascii.eqb c "_" = false.
Proof.
  intros H. repeat split; try (intros ->; discriminate).
  destruct (Ascii.eqb_spec c "_") as [->|]; [discriminate|reflexivity].
Qed.

Lemma rstrip_digits s : all_digits s = true -> rstrip s = s.
Proof.
  induction s as [|c s IH]; [reflexivity|]. cbn.
  intros H. apply andb_true_iff in H as [Hc Hs].
  rewrite (IH Hs), (digit_no_space c Hc). now destruct s.
Qed.

Lemma group_digits_plain b s :
  all_digits s = true -> s <> EmptyString -> group_digits b s = Some s.
Proof.
  revert b. induction s as [|c s IH]; intros b H Hne; [congruence|].
  cbn in H |- *. apply andb_true_iff in H as [Hc Hs].
  destruct (digit_no_sign c Hc) as (_ & _ & ->). rewrite Hc.
  destruct s as [|c' s]; [reflexivity|].
  now rewrite (IH true Hs).
Qed.

(** [int] on a plain digit string, with or without a minus sign. *)
Lemma int_digits (d : Decimal.uint) :
  d <> Decimal.Nil ->
  int (NilEmpty.string_of_uint d) = inr (Z.of_uint d)
  /\ int (String "-" (NilEmpty.string_of_uint d)) = inr (- Z.of_uint d).
Proof.
  intros Hd.
  pose proof (string_of_uint_digits d) as Hs.
  pose proof (string_of_uint_nonempty d Hd) as Hne.
  assert (Hu : NilZero.uint_of_string (NilEmpty.string_of_uint d) = Some d).
  { rewrite <- (NilZero.usu d Hd). unfold NilZero.string_of_uint.
    destruct d; [congruence|reflexivity..]. }
  destruct (NilEmpty.string_of_uint d) as [|c s] eqn:E; [congruence|].
  pose proof Hs as Hs'. cbn in Hs'. apply andb_true_iff in Hs' as [Hc _].
  destruct (digit_no_sign c Hc) as (Hm & Hp & _).
  split.
  - unfold int. cbn [lstrip]. rewrite (digit_no_space c Hc), (rstrip_digits _ Hs).
    assert (Hb : (match String c s with
                  | String "-" r => (true, r)
                  | String "+" r => (false, r)
                  | _ => (false, String c s)
                  end) = (false, String c s)).
    { destruct c as [[] [] [] [] [] [] [] []]; try reflexivity; congruence. }
    rewrite Hb, (group_digits_plain false _ Hs) by discriminate.
    cbn [mbind option_bind]. now rewrite Hu.
  - unfold int. cbn [lstrip is_space nat_of_ascii]. 
    change (is_space "-") with false. cbv iota.
    assert (Hr : rstrip (String "-" (String c s)) = String "-" (String c s)).
    { change (rstrip (String "-" (String c s)))
        with (match rstrip (String c s) with
              | EmptyString => if is_space "-" then EmptyString else String "-" EmptyString
              | r => String "-" r
              end).
      now rewrite (rstrip_digits _ Hs). }
    rewrite Hr, (group_digits_plain false _ Hs) by discriminate.
    cbn [mbind option_bind]. now rewrite Hu.
Qed.

(** Reading back the decimal form of an integer gives the integer. *)
Lemma int_str (z : Z) : int (str z) = inr z.
Proof.
  unfold str. rewrite <- (DecimalZ.of_to z) at 2.
  destruct z as [|p|p]; [reflexivity| |]; cbn [Z.to_int].
  - pose proof (Unsigned.to_uint_nonnil p) as Hd.
    unfold NilZero.string_of_int, NilZero.string_of_uint.
    destruct (Pos.to_uint p) eqn:E; [congruence|..];
      rewrite <- E in *; apply (int_digits _ Hd).
  - pose proof (Unsigned.to_uint_nonnil p) as Hd.
    unfold NilZero.string_of_int, NilZero.string_of_uint.
    destruct (Pos.to_uint p) eqn:E; [congruence|..];
      rewrite <- E in *;
      (etransitivity; [apply (int_digits _ Hd)|]); reflexivity.
Qed.

Lemma decode_sample_array (s : Sample) :
  run_py.decode_sample [s.1; str s.2] = inr s.
Proof.
  destruct s as [p l]. unfold run_py.decode_sample. cbn.
  now rewrite int_str.
Qed.

Lemma decode_split_array (split : list Sample) :
  run_py.decode_split (array split) = inr split.
Proof.
  induction split as [|s split IH]; [reflexivity|].
  cbn [array map run_py.decode_split]. fold (array split).
  now rewrite decode_sample_array, IH.
Qed.

Lemma splits_record_dom (tr val ts : list Sample) :
  dom (run_py.splits_record tr val ts) = run_py.split_keys.
Proof.
  unfold run_py.splits_record, run_py.split_keys.
  rewrite !dom_insert_L, dom_empty_L. set_solver.
Qed.

Lemma splits_record_test (tr val ts : list Sample) :
  run_py.getitem (run_py.splits_record tr val ts) "test" = inr (array ts).
Proof.
  unfold run_py.getitem, run_py.splits_record.
  now rewrite lookup_insert_eq.
Qed.

Lemma enum_from_cons k x l d :
  enum_from k (x :: l) d = enum_from (S k) l (<[x := k]> d).
Proof.
  unfold enum_from. cbn. rewrite Nat.add_0_r. f_equal.
  apply imap_ext. intros i y _. cbn. f_equal. lia.
Qed.

Lemma enum_from_notin k l d c :
  c ∉ l -> enum_from k l d !! c = d !! c.
Proof.
  revert k d. induction l as [|x l IH]; intros k d Hc; [reflexivity|].
  rewrite enum_from_cons, IH by set_solver.
  apply lookup_insert_ne. set_solver.
Qed.

Lemma enum_from_lookup k l d i c :
  NoDup l -> l !! i = Some c -> enum_from k l d !! c = Some (k + i)%nat.
Proof.
  revert k d i. induction l as [|x l IH]; intros k d i Hnd Hi; [done|].
  apply NoDup_cons in Hnd as [Hx Hnd]. rewrite enum_from_cons.
  destruct i as [|i]; cbn in Hi.
  - injection Hi as ->. rewrite enum_from_notin by done.
    rewrite lookup_insert_eq. f_equal. lia.
  - rewrite (IH _ _ i) by done. f_equal. lia.
Qed.

Lemma enum_from_dom k l d :
  dom (enum_from k l d) = list_to_set l ∪ dom d.
Proof.
  revert k d. induction l as [|x l IH]; intros k d.
  - cbn. set_solver.
  - rewrite enum_from_cons, IH, dom_insert_L. cbn. set_solver.
Qed.

Lemma dict_of_enumerate_lookup l i c :
  NoDup l -> l !! i = Some c -> dict_of_enumerate l !! c = Some i.
Proof.
  intros Hnd Hi. exact (enum_from_lookup 0 l ∅ i c Hnd Hi).
Qed.

Lemma dict_of_enumerate_dom l :
  dom (dict_of_enumerate l) = list_to_set l.
Proof.
  change (dict_of_enumerate l) with (enum_from 0 l ∅).
  rewrite enum_from_dom, dom_empty_L. set_solver.
Qed.

End PyFacts.

(** ** Runs of [run.py] *)

Section ScriptFacts.
Import Script.
Context {call : Type} {ret : call -> Type} {W R : Type}.

Lemma calls_after (e : event ret) (o : outcome (ret:=ret) W R) :
  calls (after e o) = ev_call e :: calls o.
Proof. reflexivity. Qed.

Lemma trace_after (e : event ret) (o : outcome (ret:=ret) W R) :
  trace (after e o) = e :: trace o.
Proof. reflexivity. Qed.

Lemma result_after (e : event ret) (o : outcome (ret:=ret) W R) :
  result (after e o) = result o.
Proof. reflexivity. Qed.

Lemma final_after (e : event ret) (o : outcome (ret:=ret) W R) :
  final (after e o) = final o.
Proof. reflexivity. Qed.

Lemma all_ok_after (e : event ret) (o : outcome (ret:=ret) W R) :
  all_ok (after e o) = ev_ok e && all_ok o.
Proof. reflexivity. Qed.

End ScriptFacts.

Ltac script_simpl :=
  cbn [Script.exec Script.bind mbind Script.prog_bind mret Script.prog_ret
       Script.perform Script.for_each].

(** Reading the log of a finished run. *)
Ltac script_done :=
  rewrite ?calls_after, ?trace_after, ?result_after, ?final_after,
    ?all_ok_after;
  cbn [Script.result Script.final Script.trace Script.calls Script.all_ok
       map forallb Script.ev_call Script.ev_resp Script.ev_ok andb].

(** Case analysis on the answer of the next call. *)
Ltac answer h :=
  match goal with
  | |- context [h ?c ?w] =>
      let r := fresh "r" in
      let w' := fresh "w" in
      let E := fresh "E" in
      destruct (h c w) as [r w'] eqn:E; destruct r as [?exc | r];
      [ | cbn [run_py.ret preprocess_py.ret] in r;
          repeat match goal with p : (_ * _)%type |- _ => destruct p end ];
      script_simpl
  end.

(** Case analysis on a Python expression that may raise. *)
Ltac lifted :=
  match goal with
  | |- context [Script.lift ?x] =>
      let E := fresh "E" in
      destruct x eqn:E; cbn [Script.lift]; script_simpl
  end.

(** One goal for each element of a list under [Forall]. *)
Ltac each_call := repeat first [apply List.Forall_nil | apply List.Forall_cons].

Ltac run_through h := repeat first [answer h | lifted]; script_done.

Section RunFacts.
Import Py Np Script run_py.
Context {W : Type} (h : handler ret W).

Lemma main_train_mode args w :
  mode args = "train" ->
  exec h (main args) w =
  exec h (cuda ← perform cuda_is_available;
          let device := if cuda : bool then "cuda:0" else "cpu" in
          '(h, w, mean, std) ← perform (transform_stats (model_type args));
          '(tr_transforms, val_ts_transforms) ←
            perform (compose_data_transforms h w mean std);
          model ←
            perform (LRCN (rnn_hidden_size args) (rnn_n_layers args) (dropout args)
                       (n_classes args) (pretrained args) (cnn_backbone args));
          main_train args device tr_transforms val_ts_transforms model) w.
Proof. intros H. unfold main. now rewrite H. Qed.

Lemma main_eval_mode args w :
  mode args = "eval" ->
  exec h (main args) w =
  exec h (cuda ← perform cuda_is_available;
          let device := if cuda : bool then "cuda:0" else "cpu" in
          '(h, w, mean, std) ← perform (transform_stats (model_type args));
          '(tr_transforms, val_ts_transforms) ←
            perform (compose_data_transforms h w mean std);
          model ←
            perform (LRCN (rnn_hidden_size args) (rnn_n_layers args) (dropout args)
                       (n_classes args) (pretrained args) (cnn_backbone args));
          main_eval args device val_ts_transforms model) w.
Proof. intros H. unfold main. now rewrite H. Qed.

(** In train mode the splits that [dataset_split] returns are saved, as
    arrays, under the three keys in [./splits.npy]. *)
Lemma train_saves_split args w s :
  mode args = "train" ->
  split_produced (trace (exec h (main args) w)) = Some s ->
  record_saved (calls (exec h (main args) w))
    = Some ("./splits.npy", splits_record s.1.1 s.1.2 s.2).
Proof.
  intros Hm. rewrite (main_train_mode _ _ Hm). clear Hm. revert s.
  unfold main_train. script_simpl.
  run_through h;
    cbn [split_produced record_saved first_some split_of saved_of];
    intros s Hs; try discriminate.
  all: injection Hs as <-; reflexivity.
Qed.

(** In eval mode the test split is decoded from the record that
    [np.load] returns. *)
Lemma eval_decodes_split args w tr val ts :
  mode args = "eval" ->
  record_loaded (trace (exec h (main args) w))
    = Some ("./splits.npy", splits_record tr val ts) ->
  test_split_used (calls (exec h (main args) w)) = Some ts.
Proof.
  intros Hm. rewrite (main_eval_mode _ _ Hm). clear Hm.
  unfold main_eval. script_simpl.
  do 4 (answer h; [script_done; intros; discriminate|]).
  answer h; [script_done; intros; discriminate|].
  rewrite !trace_after, !calls_after.
  cbn [record_loaded first_some loaded_of ev_call ev_resp test_split_used
       dataset_of].
  intros Hl. injection Hl as ->.
  rewrite splits_record_test. cbn [lift]. script_simpl.
  rewrite decode_split_array. cbn [lift]. script_simpl.
  answer h; script_done; reflexivity.
Qed.

End RunFacts.

Section RunFacts2.
Import Py Np Script run_py.
Context {W : Type} (h : handler ret W).

(** Whatever the mode, the fourth call of [main] constructs the LRCN. *)
Lemma main_builds_lrcn args w :
  forallb ev_ok (take 3 (trace (exec h (main args) w))) = true ->
  calls (exec h (main args) w) !! 3%nat
    = Some (LRCN (rnn_hidden_size args) (rnn_n_layers args) (dropout args)
              (n_classes args) (pretrained args) (cnn_backbone args)).
Proof.
  unfold main. script_simpl.
  do 3 (answer h; [script_done; intros; discriminate|]).
  intros _. answer h; [reflexivity|].
  now rewrite !calls_after.
Qed.

(** In train mode nothing but the split record is saved. *)
Lemma train_saves_only_splits args w :
  mode args = "train" ->
  Forall (fun c => forall f a, saved_of c = Some (f, a) ->
                   f = "./splits.npy" ∧ dom a = split_keys)
    (calls (exec h (main args) w)).
Proof.
  intros Hm. rewrite (main_train_mode _ _ _ Hm). clear Hm.
  unfold main_train. script_simpl.
  run_through h; each_call; cbn [saved_of]; try discriminate.
  all: intros ? ? Hs; injection Hs as <- <-; split; [reflexivity|].
  all: apply splits_record_dom.
Qed.

(** In eval mode the dictionary given to [get_confusion_matrix] is the
    comprehension over the listing of [UCF50], and the names given to
    both reports are that listing. *)
Lemma eval_labels_from_listing args w d cats :
  mode args = "eval" ->
  labels_reported (calls (exec h (main args) w)) = Some (d, cats) ->
  categories_listed (trace (exec h (main args) w)) = Some ("UCF50", cats)
  ∧ d = dict_of_enumerate cats
  ∧ names_reported (calls (exec h (main args) w)) = Some cats.
Proof.
  intros Hm. rewrite (main_eval_mode _ _ _ Hm). clear Hm.
  unfold main_eval. script_simpl.
  run_through h;
    cbn [labels_reported categories_listed names_reported first_some
         reported_of listed_of names_of];
    intros Hr; try discriminate.
  all: injection Hr as <- <-; auto.
Qed.

(** With a mode other than the two, only the setup calls are made, the
    run fails, and if the setup calls return it fails with the
    [ValueError] of the last branch, after the model was constructed. *)
Lemma invalid_mode_run args w :
  mode args <> "train" -> mode args <> "eval" ->
  let o := exec h (main args) w in
  forallb is_setup (calls o) = true
  ∧ (exists e, result o = inl e)
  ∧ (all_ok o = true ->
     result o = inl (ValueError mode_message)
     ∧ exists a b c d,
         calls o = [cuda_is_available; transform_stats (model_type args);
                    compose_data_transforms a b c d;
                    LRCN (rnn_hidden_size args) (rnn_n_layers args) (dropout args)
                      (n_classes args) (pretrained args) (cnn_backbone args)]).
Proof.
  intros Ht He. apply String.eqb_neq in Ht, He.
  unfold main. rewrite Ht, He. script_simpl.
  run_through h; (split; [reflexivity|]); (split; [eauto|]);
    cbn [is_setup]; intros Hok; try discriminate.
  split; [reflexivity|]. eauto 10.
Qed.

(** A missing required option ends the script in [args_parser]. *)
Lemma missing_required_exits a w :
  given_n_classes a = None ∨ given_mode a = None ∨ given_batch_size a = None ->
  exists msg, exec h (run a) w = Outcome (inl (SystemExit 2 msg)) w [].
Proof.
  intros Hmiss. unfold run, args_parser.
  destruct (given_n_classes a), (given_mode a), (given_batch_size a);
    try (cbn; eauto; fail).
  destruct Hmiss as [?|[?|?]]; discriminate.
Qed.

Lemma getitem_error {V} (d : gmap string V) key e :
  getitem d key = inl e -> e = KeyError key.
Proof. unfold getitem. destruct (d !! key); congruence. Qed.

Lemma int_error s e : int s = inl e -> own_error e = true.
Proof.
  unfold int.
  destruct (match rstrip (lstrip s) with
            | String "-" r => (true, r)
            | String "+" r => (false, r)
            | _ => (false, rstrip (lstrip s))
            end) as [negative body].
  destruct (group_digits false body ≫= NilZero.uint_of_string); [discriminate|].
  intros H. injection H as <-. reflexivity.
Qed.

Lemma decode_sample_error row e : decode_sample row = inl e -> own_error e = true.
Proof.
  unfold decode_sample, row_item.
  destruct (row !! 0%nat); [|intros H; injection H as <-; reflexivity].
  destruct (row !! 1%nat) as [l|]; [|intros H; injection H as <-; reflexivity].
  destruct (int l) eqn:E; [|discriminate].
  intros H. injection H as <-. eauto using int_error.
Qed.

Lemma decode_split_error arr e : decode_split arr = inl e -> own_error e = true.
Proof.
  induction arr as [|row arr IH]; cbn [decode_split]; [discriminate|].
  destruct (decode_sample row) eqn:E.
  - intros H. injection H as <-. eauto using decode_sample_error.
  - destruct (decode_split arr); [|discriminate].
    intros H. injection H as <-. auto.
Qed.

(** In eval mode no call receives the labels before the accuracy is
    printed; once [os.listdir] has returned, the accuracy is printed; and
    the only exceptions the branch raises itself come from decoding. *)
Lemma eval_reports_accuracy_first args w :
  mode args = "eval" ->
  let o := exec h (main args) w in
  accuracy_first (calls o) = true
  ∧ (forall cats, categories_listed (trace o) = Some ("UCF50", cats) ->
                  existsb is_accuracy_line (calls o) = true)
  ∧ (all_ok o = true ->
     result o = inr tt ∨ exists e, result o = inl e ∧ own_error e = true).
Proof.
  intros Hm. rewrite (main_eval_mode _ _ _ Hm). clear Hm.
  unfold main_eval. script_simpl.
  run_through h;
    (split; [reflexivity|]);
    (split; [cbn [categories_listed first_some listed_of existsb is_accuracy_line orb];
             intros; first [discriminate | reflexivity] |]);
    intros Hok; try discriminate; auto.
  - right. eexists; split; [reflexivity|].
    match goal with H : getitem _ _ = inl _ |- _ => apply getitem_error in H as -> end.
    reflexivity.
  - right. eexists; split; [reflexivity|]. eauto using decode_split_error.
  - right. eexists; split; [reflexivity|].
    match goal with H : getitem _ _ = inl _ |- _ => apply getitem_error in H as -> end.
    reflexivity.
Qed.

End RunFacts2.

Section ModelType.
Import Py Np Script run_py.
Context {W : Type} (h : handler ret W).

(** The model type reaches the environment through three calls only:
    if their answers do not depend on it, neither does the run. *)
Lemma model_type_confined args mt w :
  blind h ->
  let o := exec h (main args) w in
  let o' := exec h (main (with_model_type mt args)) w in
  result o' = result o ∧ final o' = final o
  ∧ map forget_model_type (calls o') = map forget_model_type (calls o).
Proof.
  intros (Hs & Htv & Hts).
  unfold main, main_train, main_eval.
  cbn [with_model_type frame_dir train_size test_size fr_per_vid n_classes ckpt
       model_type cnn_backbone pretrained rnn_hidden_size rnn_n_layers mode
       batch_size dropout learning_rate n_epochs].
  script_simpl.
  answer h; [auto|].
  rewrite (Hs mt (model_type args)).
  do 3 (answer h; [auto|]).
  destruct (String.eqb (mode args) "train").
  - script_simpl.
    do 5 (answer h; [auto|]).
    rewrite (Htv _ _ _ mt (model_type args)).
    run_through h; auto.
  - destruct (String.eqb (mode args) "eval"); [|script_simpl; auto].
    script_simpl.
    answer h; [auto|]. lifted; [auto|]. lifted; [auto|].
    answer h; [auto|].
    rewrite (Hts _ _ mt (model_type args)).
    run_through h; auto.
Qed.

End ModelType.

Lemma demo_env_blind : run_py.blind demo.env.
Proof. repeat split. Qed.

(** ** The claims about [run.py] *)

Section RunClaims.
Import Py Np Script run_py.

(** C3.  Round trip of the split record.  A train-mode run saves the
    splits returned by [dataset_split] as one record in [./splits.npy]
    whose keys are exactly [train], [val] and [test]; an eval-mode run to
    which [np.load] returns this record builds its test dataset from
    exactly the [(path, label)] pairs of the test split of training. *)
Theorem split_record_round_trip {W : Type} (h : handler ret W)
    (w_train w_eval : W) (a_train a_eval : Namespace)
    (tr val ts : list Sample) :
  mode a_train = "train" ->
  mode a_eval = "eval" ->
  split_produced (trace (exec h (main a_train) w_train)) = Some (tr, val, ts) ->
  record_saved (calls (exec h (main a_train) w_train))
    = Some ("./splits.npy", splits_record tr val ts)
  ∧ dom (splits_record tr val ts) = split_keys
  ∧ (record_loaded (trace (exec h (main a_eval) w_eval))
       = Some ("./splits.npy", splits_record tr val ts) ->
     test_split_used (calls (exec h (main a_eval) w_eval)) = Some ts).
Proof.
  intros Ht He Hs. split; [|split].
  - exact (train_saves_split h a_train w_train _ Ht Hs).
  - apply splits_record_dom.
  - exact (eval_decodes_split h a_eval w_eval tr val ts He).
Qed.

Lemma split_record_round_trip_witness :
  let train_run := exec demo.env (main (demo.arguments "train")) demo.start in
  let eval_run :=
    exec demo.env (main (demo.arguments "eval")) (final train_run) in
  test_split_used (calls eval_run) = Some [("frames/c1/v5", 1)].
Proof.
  intros train_run eval_run.
  refine (proj2 (proj2 (split_record_round_trip demo.env demo.start
            (final train_run) (demo.arguments "train") (demo.arguments "eval")
            [("frames/c1/v3", 1); ("frames/c1/v1", 1); ("frames/c0/v6", 0);
             ("frames/c0/v2", 0); ("frames/c1/v9", 1); ("frames/c0/v0", 0);
             ("frames/c0/v4", 0)]
            [("frames/c1/v7", 1); ("frames/c0/v8", 0)]
            [("frames/c1/v5", 1)] _ _ _)) _);
    vm_compute; reflexivity.
Defined.

(** C1, as stated, fails.  In the concrete environment the dictionary
    built by [load_dataset] during training maps [c0] to 0, and the
    dictionary the eval run reports with, recomputed from the listing of
    [UCF50], maps [c0] to 1. *)
Lemma label_dict_recomputed_counterexample :
  let train_run := exec demo.env (run (demo.command "train")) demo.start in
  let eval_run := exec demo.env (run (demo.command "eval")) (final train_run) in
  exists built reported cats,
    labels_built (trace train_run) = Some built
    ∧ labels_reported (calls eval_run) = Some (reported, cats)
    ∧ built !! "c0" = Some 0%nat
    ∧ reported !! "c0" = Some 1%nat
    ∧ built <> reported.
Proof.
  cbv zeta.
  exists demo.label_dict, (dict_of_enumerate ["c1"; "c0"]), ["c1"; "c0"].
  split; [vm_compute; reflexivity|].
  split; [vm_compute; reflexivity|].
  split; [vm_compute; reflexivity|].
  split; [vm_compute; reflexivity|].
  intros Heq. apply (f_equal (fun d => d !! "c0")) in Heq.
  vm_compute in Heq. discriminate.
Qed.

(** C1, amended.  A train-mode run saves nothing but the split record,
    whose keys are [train], [val] and [test]: the label dictionary is not
    persisted.  In an eval-mode run the dictionary given to
    [get_confusion_matrix] is the comprehension over the listing of the
    directory [UCF50] obtained in that run, and both reports get that
    listing as class names.  The comprehension is a function of the
    listing; for a listing without repetition it maps the name at
    position [i] to [i] and its keys are the listed names. *)
Theorem label_dict_recomputed_from_listing {W : Type} (h : handler ret W)
    (w : W) (args : Namespace) :
  (mode args = "train" ->
   Forall (fun c => forall f a, saved_of c = Some (f, a) ->
                    f = "./splits.npy" ∧ dom a = split_keys)
     (calls (exec h (main args) w)))
  ∧ (mode args = "eval" ->
     forall d cats,
       labels_reported (calls (exec h (main args) w)) = Some (d, cats) ->
       categories_listed (trace (exec h (main args) w)) = Some ("UCF50", cats)
       ∧ d = dict_of_enumerate cats
       ∧ names_reported (calls (exec h (main args) w)) = Some cats)
  ∧ (forall cats : list string,
       NoDup cats ->
       dom (dict_of_enumerate cats) = list_to_set cats
       ∧ forall (i : nat) (c : string),
           cats !! i = Some c -> dict_of_enumerate cats !! c = Some i).
Proof.
  split; [|split].
  - apply train_saves_only_splits.
  - intros Hm d cats. now apply eval_labels_from_listing.
  - intros cats Hnd. split; [apply dict_of_enumerate_dom|].
    intros i c. now apply dict_of_enumerate_lookup.
Qed.

Lemma label_dict_recomputed_witness :
  let train_run := exec demo.env (main (demo.arguments "train")) demo.start in
  let eval_run :=
    exec demo.env (main (demo.arguments "eval")) (final train_run) in
  categories_listed (trace eval_run) = Some ("UCF50", ["c1"; "c0"])
  ∧ dict_of_enumerate ["c1"; "c0"] !! "c0" = Some 1%nat.
Proof.
  intros train_run eval_run.
  pose proof (label_dict_recomputed_from_listing demo.env (final train_run)
                (demo.arguments "eval")) as (_ & He & Hd).
  split.
  - refine (proj1 (He eq_refl (dict_of_enumerate ["c1"; "c0"]) ["c1"; "c0"] _)).
    vm_compute; reflexivity.
  - refine (proj2 (Hd ["c1"; "c0"] _) 1%nat "c0" eq_refl).
    apply (bool_decide_unpack (NoDup ["c1"; "c0"])). vm_compute. exact I.
Defined.

(** C4, as stated, fails.  With the mode [predict] the run ends with the
    [ValueError] of the last branch, but the LRCN has been constructed by
    then. *)
Lemma invalid_mode_counterexample :
  let o := exec demo.env (run (demo.command "predict")) demo.start in
  result o = inl (ValueError mode_message)
  ∧ existsb is_model_construction (calls o) = true.
Proof. split; vm_compute; reflexivity. Qed.

(** C4, amended.  With a mode other than [train] and [eval], [main]
    makes only the calls that precede the branch on the mode (device
    query, transform statistics, transforms, construction of the LRCN),
    so no dataset work starts, and the run fails; when those calls return,
    it fails with the [ValueError] of the last branch, after the model
    was constructed.  A command line without one of the required options
    ends in [args_parser] with exit status 2, before any call. *)
Theorem invalid_mode_fails_after_setup {W : Type} (h : handler ret W) (w : W) :
  (forall args : Namespace,
     mode args <> "train" -> mode args <> "eval" ->
     let o := exec h (main args) w in
     forallb is_setup (calls o) = true
     ∧ (exists e, result o = inl e)
     ∧ (all_ok o = true ->
        result o = inl (ValueError mode_message)
        ∧ exists a b c d,
            calls o = [cuda_is_available; transform_stats (model_type args);
                       compose_data_transforms a b c d;
                       LRCN (rnn_hidden_size args) (rnn_n_layers args)
                         (dropout args) (n_classes args) (pretrained args)
                         (cnn_backbone args)]))
  ∧ (forall a : argv,
       given_n_classes a = None ∨ given_mode a = None
       ∨ given_batch_size a = None ->
       exists msg, exec h (run a) w = Outcome (inl (SystemExit 2 msg)) w []).
Proof.
  split.
  - intros args. apply invalid_mode_run.
  - intros a. apply missing_required_exits.
Qed.

Lemma invalid_mode_fails_after_setup_witness :
  forallb is_setup
    (calls (exec demo.env (main (demo.arguments "predict")) demo.start)) = true
  ∧ exists msg,
      exec demo.env (run (Argv None None None None None None None None None
                            None None (Some "train") (Some 4) None None None))
        demo.start
      = Outcome (inl (SystemExit 2 msg)) demo.start [].
Proof.
  pose proof (invalid_mode_fails_after_setup demo.env demo.start) as [Hm Hr].
  split.
  - refine (proj1 (Hm (demo.arguments "predict") _ _)); discriminate.
  - apply Hr. left. reflexivity.
Defined.

(** C8, as stated, fails.  [UCF50] lists one class while the checkpoint
    has two outputs.  Even in an environment whose report functions
    check this and raise [LabelMismatchError], the eval run has printed
    the overall accuracy before it fails. *)
Lemma label_mismatch_counterexample :
  let train_run :=
    exec demo.env (run (demo.command "train")) demo.start_one_class in
  let eval_run := exec demo.env (run (demo.command "eval")) (final train_run) in
  categories_listed (trace eval_run) = Some ("UCF50", ["c0"])
  ∧ result eval_run = inl test_py.LabelMismatchError
  ∧ last (calls eval_run) = Some (get_test_report (Obj 18) (Obj 19) ["c0"])
  ∧ length (calls eval_run) = 14%nat
  ∧ existsb is_accuracy_line (take 13 (calls eval_run)) = true
  ∧ forallb ev_ok (take 13 (trace eval_run)) = true.
Proof. cbv zeta. repeat split; vm_compute; reflexivity. Qed.

(** C8, amended.  In an eval-mode run no call receives the class names
    or the label dictionary before the overall accuracy is printed; the
    accuracy is printed as soon as [os.listdir] has returned the listing
    of [UCF50], whatever it lists; and when every call returns, the run
    ends normally or with an exception from decoding the split record or
    the loader dictionary: [main] itself compares the label dictionary
    with nothing. *)
Theorem eval_prints_accuracy_unvalidated {W : Type} (h : handler ret W)
    (w : W) (args : Namespace) :
  mode args = "eval" ->
  let o := exec h (main args) w in
  accuracy_first (calls o) = true
  ∧ (forall cats, categories_listed (trace o) = Some ("UCF50", cats) ->
                  existsb is_accuracy_line (calls o) = true)
  ∧ (all_ok o = true ->
     result o = inr tt ∨ exists e, result o = inl e ∧ own_error e = true).
Proof. apply eval_reports_accuracy_first. Qed.

Lemma eval_prints_accuracy_unvalidated_witness :
  let train_run :=
    exec demo.env (main (demo.arguments "train")) demo.start_one_class in
  accuracy_first
    (calls (exec demo.env (main (demo.arguments "eval")) (final train_run)))
  = true.
Proof.
  intros train_run.
  exact (proj1 (eval_prints_accuracy_unvalidated demo.env (final train_run)
                  (demo.arguments "eval") eq_refl)).
Defined.

(** C9.  Whatever the mode and the model type, once the three calls
    before it have returned, the fourth call of [main] constructs an LRCN
    from the options other than the model type, before the branch on the
    mode.  The model type is an argument of [transform_stats],
    [train_val_dloaders] and [test_dloaders] only: in an environment whose
    answers to these three do not depend on it, changing the model type
    changes neither the result, nor the final state, nor any other call
    of the run. *)
Theorem lrcn_whatever_model_type {W : Type} (h : handler ret W) (w : W)
    (args : Namespace) (mt : string) :
  (forallb ev_ok (take 3 (trace (exec h (main (with_model_type mt args)) w)))
     = true ->
   calls (exec h (main (with_model_type mt args)) w) !! 3%nat
     = Some (LRCN (rnn_hidden_size args) (rnn_n_layers args) (dropout args)
               (n_classes args) (pretrained args) (cnn_backbone args)))
  ∧ (blind h ->
     let o := exec h (main args) w in
     let o' := exec h (main (with_model_type mt args)) w in
     result o' = result o ∧ final o' = final o
     ∧ map forget_model_type (calls o') = map forget_model_type (calls o)).
Proof.
  split.
  - apply (main_builds_lrcn h (with_model_type mt args) w).
  - apply model_type_confined.
Qed.

Lemma lrcn_whatever_model_type_witness :
  calls (exec demo.env (main (with_model_type "3dcnn" (demo.arguments "train")))
           demo.start) !! 3%nat
    = Some (LRCN 100 1 (1 # 10) 2 PyTrue "resnet34")
  ∧ result (exec demo.env
              (main (with_model_type "3dcnn" (demo.arguments "train")))
              demo.start)
    = result (exec demo.env (main (demo.arguments "train")) demo.start).
Proof.
  pose proof (lrcn_whatever_model_type demo.env demo.start
                (demo.arguments "train") "3dcnn") as [Hb Hc].
  split.
  - apply Hb. vm_compute. reflexivity.
  - exact (proj1 (Hc demo_env_blind)).
Defined.

End RunClaims.

(** ** The training loop *)

Section TrainFacts.
Import train_py.
Context {Params X Sched : Type}.
Variable sample_loss : Params -> X -> Q.
Variable correct : Params -> X -> bool.
Variable opt_step : Q -> Params -> list X -> Params.
Variable sched_lr : Sched -> Q.
Variable sched_step : Sched -> Q -> Sched.

Local Abbreviation train_phase := (train_phase sample_loss correct opt_step).
Local Abbreviation train_batch := (train_batch sample_loss correct opt_step).
Local Abbreviation val_phase := (val_phase sample_loss correct).
Local Abbreviation val_batch := (val_batch sample_loss correct).
Local Abbreviation losses_seen := (losses_seen sample_loss opt_step).
Local Abbreviation epoch := (epoch sample_loss correct opt_step sched_lr sched_step).
Local Abbreviation train := (train sample_loss correct opt_step sched_lr sched_step).
Local Abbreviation run_epochs := (run_epochs sample_loss correct opt_step sched_lr sched_step).

Lemma Qsum_app (l1 l2 : list Q) : (Qsum (l1 ++ l2) == Qsum l1 + Qsum l2)%Q.
Proof.
  induction l1 as [|x l1 IH]; cbn [app].
  - change (Qsum []) with 0%Q. ring.
  - change (Qsum (x :: l1 ++ l2)) with (x + Qsum (l1 ++ l2))%Q.
    change (Qsum (x :: l1)) with (x + Qsum l1)%Q.
    rewrite IH. ring.
Qed.

Lemma train_phase_from (lr : Q) (batches : list (list X)) (t : totals) :
  (running_loss (fold_left (train_batch Sum lr) batches t)
   == running_loss t + Qsum (losses_seen lr (params_now t) batches))%Q.
Proof.
  revert t. induction batches as [|b bs IH]; intros t; cbn [fold_left losses_seen].
  - cbn. ring.
  - rewrite IH. cbn [train_batch running_loss params_now loss_func].
    rewrite Qsum_app. ring.
Qed.

Lemma val_phase_params (r : reduction) (batches : list (list X)) (t : totals) :
  params_now (fold_left (val_batch r) batches t) = params_now t.
Proof.
  revert t. induction batches as [|b bs IH]; intros t; [reflexivity|].
  cbn [fold_left]. now rewrite IH.
Qed.

Lemma val_phase_from (batches : list (list X)) (t : totals) :
  (running_loss (fold_left (val_batch Sum) batches t)
   == running_loss t + Qsum (map (sample_loss (params_now t)) (concat batches)))%Q.
Proof.
  revert t. induction batches as [|b bs IH]; intros t; cbn [fold_left concat].
  - cbn. ring.
  - rewrite IH. cbn [val_batch running_loss params_now loss_func].
    rewrite map_app, Qsum_app. ring.
Qed.

Lemma losses_seen_length (lr : Q) (p : Params) (batches : list (list X)) :
  length (losses_seen lr p batches) = dataset_size batches.
Proof.
  unfold dataset_size. revert p.
  induction batches as [|b bs IH]; intros p; [reflexivity|].
  cbn [losses_seen concat]. rewrite !length_app, length_map. now rewrite IH.
Qed.

(** The history grows by one entry per epoch. *)
Lemma history_epoch r trb vb (s : state) :
  history (epoch r trb vb s)
  = history s
    ++ [Metrics
          (epoch_loss (train_phase r (sched_lr (sched s)) (params s) trb) trb)
          (epoch_loss
             (val_phase r
                (params_now (train_phase r (sched_lr (sched s)) (params s) trb))
                vb) vb)
          (epoch_acc (train_phase r (sched_lr (sched s)) (params s) trb) trb)
          (epoch_acc
             (val_phase r
                (params_now (train_phase r (sched_lr (sched s)) (params s) trb))
                vb) vb)].
Proof. reflexivity. Qed.

Lemma history_length r trb vb p0 s0 (n : nat) :
  length (history (train r trb vb p0 s0 n)) = n.
Proof.
  unfold train. induction n as [|n IH]; [reflexivity|].
  cbn [train_py.run_epochs]. rewrite history_epoch, length_app, IH. cbn. lia.
Qed.

(** Entry [i] of the history is what epoch [i] recorded, whatever the
    number of epochs run after it. *)
Lemma history_at r trb vb p0 s0 (n i : nat) (m : metrics) :
  history (train r trb vb p0 s0 n) !! i = Some m ->
  (i < n)%nat
  ∧ history (epoch r trb vb (train r trb vb p0 s0 i))
    = history (train r trb vb p0 s0 i) ++ [m].
Proof.
  induction n as [|n IH]; [discriminate|].
  pose proof (history_length r trb vb p0 s0 n) as Hlen.
  unfold train in *. cbn [train_py.run_epochs].
  rewrite history_epoch.
  destruct (decide (i < n)%nat) as [Hi|Hi].
  - rewrite lookup_app_l by lia. intros Hm.
    destruct (IH Hm) as [_ IH']. split; [lia|exact IH'].
  - intros Hm. pose proof (lookup_lt_Some _ _ _ Hm) as Hlt.
    rewrite length_app, Hlen in Hlt. cbn in Hlt.
    assert (i = n) as -> by lia. split; [lia|].
    rewrite lookup_app_r, Hlen, Nat.sub_diag in Hm by lia.
    cbn in Hm. injection Hm as <-. apply history_epoch.
Qed.

(** What an epoch records under the reduction [sum]: the per-sample
    losses seen in the training phase, and those of the validation
    samples under the parameters the training phase ends with, each sum
    divided by the size of its dataset. *)
Lemma epoch_records_mean trb vb (s : state) (m : metrics) :
  history (epoch Sum trb vb s) = history s ++ [m] ->
  (train_loss m
   == Qsum (losses_seen (sched_lr (sched s)) (params s) trb)
      / Qnat (dataset_size trb))%Q
  ∧ (val_loss m
     == Qsum (map (sample_loss (params (epoch Sum trb vb s))) (concat vb))
        / Qnat (dataset_size vb))%Q.
Proof.
  rewrite history_epoch. intros H. apply app_inv_head in H.
  injection H as <-. cbn [train_loss val_loss train_py.epoch params].
  unfold epoch_loss, train_py.train_phase, train_py.val_phase.
  rewrite train_phase_from, val_phase_from.
  cbn [running_loss params_now]. split.
  - now rewrite Qplus_0_l.
  - now rewrite Qplus_0_l.
Qed.

(** Under [sum] a batch adds the sum of the losses of its samples to
    the running loss of the training phase, whatever its size. *)
Lemma train_phase_snoc (lr : Q) (p : Params) (batches : list (list X))
    (batch : list X) :
  let before := train_phase Sum lr p batches in
  (running_loss (train_phase Sum lr p (batches ++ [batch]))
   == running_loss before
      + Qsum (map (sample_loss (params_now before)) batch))%Q.
Proof.
  cbv zeta. unfold train_py.train_phase. rewrite fold_left_app.
  cbn [fold_left train_py.train_batch running_loss loss_func]. reflexivity.
Qed.

(** After at least one epoch, the checkpoint is that of the earliest
    epoch with the least validation loss. *)
Lemma best_after_epochs r trb vb p0 s0 (n : nat) :
  exists k, (k < S n)%nat
            ∧ best_at (train r trb vb p0 s0 (S n)) (train r trb vb p0 s0) k.
Proof.
  induction n as [|n (k & Hk & m & Hm & Hc & Hb & Hmin & Hfirst)].
  - exists 0%nat. split; [lia|]. unfold best_at, train. cbn [train_py.run_epochs].
    eexists. split; [reflexivity|]. split; [reflexivity|]. split; [reflexivity|].
    split.
    + intros [|j] m' Hj; cbn in Hj; [|discriminate].
      injection Hj as <-. apply Qle_refl.
    + intros j m' Hj. lia.
  - pose proof (history_length r trb vb p0 s0 (S n)) as Hlen.
    unfold train in *.
    set (s := train_py.run_epochs sample_loss correct opt_step sched_lr
                sched_step r trb vb (S n) (State p0 s0 None None [])) in *.
    change (train_py.run_epochs sample_loss correct opt_step sched_lr sched_step
              r trb vb (S (S n)) (State p0 s0 None None []))
      with (epoch r trb vb s).
    remember (epoch r trb vb s) as s' eqn:Es'.
    assert (Hh : history s' = history s ++ [List.last (history s') m]).
    { subst s'. rewrite history_epoch. now rewrite last_last. }
    set (m' := List.last (history s') m) in *.
    assert (Hnew : history s' !! S n = Some m').
    { rewrite Hh, lookup_app_r by lia. now rewrite Hlen, Nat.sub_diag. }
    assert (Hold : forall j x, history s' !! j = Some x ->
                               (j < S n)%nat ∧ history s !! j = Some x
                               ∨ j = S n ∧ x = m').
    { intros j x Hj. rewrite Hh in Hj. apply lookup_app_Some in Hj as [Hj|[Hj1 Hj2]].
      - left. split; [|exact Hj]. apply lookup_lt_Some in Hj. lia.
      - right. rewrite Hlen in *. destruct (j - S n)%nat eqn:Ej; cbn in Hj2.
        + injection Hj2 as <-. split; [lia|reflexivity].
        + discriminate. }
    assert (Hv : val_loss m'
                 = epoch_loss
                     (val_phase r
                        (params_now
                           (train_phase r (sched_lr (sched s)) (params s) trb))
                        vb) vb).
    { unfold m'. subst s'. rewrite history_epoch. now rewrite last_last. }
    assert (Hcb : (checkpoint s' = Some (params s')
                   ∧ best_loss s' = Some (val_loss m')
                   ∧ (val_loss m' < val_loss m)%Q)
                  ∨ (checkpoint s' = checkpoint s ∧ best_loss s' = best_loss s
                     ∧ (val_loss m <= val_loss m')%Q)).
    { subst s'. unfold train_py.epoch.
      cbn [checkpoint best_loss params train_py.val_loss].
      rewrite <- Hv. rewrite Hb. cbn [improves].
      destruct (Qlt_le_dec (val_loss m') (val_loss m)); [left|right]; auto. }
    destruct Hcb as [(Hc' & Hb' & Hlt)|(Hc' & Hb' & Hle)].
    + exists (S n). split; [lia|]. exists m'. subst s'.
      repeat split; try assumption.
      * intros j x Hj. destruct (Hold j x Hj) as [[Hlt' Hj']|[-> ->]].
        -- apply Qlt_le_weak. eapply Qlt_le_trans; [exact Hlt|]. eauto.
        -- apply Qle_refl.
      * intros j x Hjk Hj. destruct (Hold j x Hj) as [[Hlt' Hj']|[-> ->]]; [|lia].
        eapply Qlt_le_trans; [exact Hlt|]. eauto.
    + exists k. split; [lia|]. exists m. subst s'.
      repeat split.
      * rewrite Hh. apply lookup_app_l_Some. exact Hm.
      * rewrite Hc'. exact Hc.
      * rewrite Hb'. exact Hb.
      * intros j x Hj. destruct (Hold j x Hj) as [[Hlt' Hj']|[-> ->]]; eauto.
      * intros j x Hjk Hj. destruct (Hold j x Hj) as [[Hlt' Hj']|[-> ->]]; eauto.
        lia.
Qed.

(** The checkpoint is overwritten in an epoch exactly when its validation
    loss is below all earlier ones. *)
Lemma checkpoint_overwrite r trb vb p0 s0 (i : nat) (m : metrics) :
  history (train r trb vb p0 s0 (S i)) !! i = Some m ->
  ((forall m', m' ∈ history (train r trb vb p0 s0 i) ->
               (val_loss m < val_loss m')%Q) ->
   checkpoint (train r trb vb p0 s0 (S i))
   = Some (params (train r trb vb p0 s0 (S i))))
  ∧ ((exists m', m' ∈ history (train r trb vb p0 s0 i)
                 ∧ (val_loss m' <= val_loss m)%Q) ->
     checkpoint (train r trb vb p0 s0 (S i))
     = checkpoint (train r trb vb p0 s0 i)).
Proof.
  pose proof (history_length r trb vb p0 s0 i) as Hlen.
  unfold train in *. cbn [train_py.run_epochs].
  set (s := train_py.run_epochs sample_loss correct opt_step sched_lr
              sched_step r trb vb i (State p0 s0 None None [])) in *.
  rewrite history_epoch, lookup_app_r by lia.
  rewrite Hlen, Nat.sub_diag. cbn [lookup list_lookup].
  intros Hm. injection Hm as <-. cbn [val_loss].
  unfold train_py.epoch. cbn [checkpoint params val_loss].
  set (v := epoch_loss _ vb).
  destruct i as [|i].
  - subst s. cbn. split; [reflexivity|].
    intros (m' & Hin & _). inversion Hin.
  - destruct (best_after_epochs r trb vb p0 s0 i)
      as (k & Hk & mk & Hmk & _ & Hb & Hmin & _).
    unfold train in *. fold s in Hmk, Hb, Hmin.
    rewrite Hb. cbn [improves].
    destruct (Qlt_le_dec v (val_loss mk)) as [Hlt|Hle]; split; try reflexivity.
    + intros (m' & Hin & Hle). exfalso.
      apply list_elem_of_lookup in Hin as [j Hj].
      apply (Qlt_irrefl v). eapply Qlt_le_trans; [exact Hlt|].
      eapply Qle_trans; [|exact Hle]. eauto.
    + intros Hall. exfalso.
      apply (Qlt_irrefl v). eapply Qlt_le_trans; [|exact Hle].
      apply Hall. eapply list_elem_of_lookup_2. exact Hmk.
Qed.

End TrainFacts.

Section LossInMain.
Import Py Np Script run_py.
Context {W : Type} (h : handler ret W).

(** Every loss function [main] creates is created with the reduction
    [sum], and [train] gets the loss function so created. *)
Lemma main_loss_is_sum args w :
  Forall (fun c => forall r, reduction_of c = Some r -> r = "sum")
    (calls (exec h (main args) w))
  ∧ (forall f, trained_with (calls (exec h (main args) w)) = Some f ->
               loss_created (trace (exec h (main args) w)) = Some ("sum", f)).
Proof.
  unfold main, main_train, main_eval. script_simpl.
  do 4 (answer h;
        [script_done; split;
         [each_call; cbn [reduction_of]; intros; discriminate
         |cbn [trained_with first_some trained_with_of]; intros; discriminate]|]).
  destruct (String.eqb (mode args) "train");
    [|destruct (String.eqb (mode args) "eval")];
    script_simpl; run_through h;
    (split;
     [each_call; cbn [reduction_of]; intros ? Hr; try discriminate;
      injection Hr as <-; reflexivity
     |cbn [trained_with first_some trained_with_of loss_created loss_of];
      intros ? Hf; try discriminate; injection Hf as <-; reflexivity]).
Qed.

End LossInMain.

(** ** The claims about the training loop *)

Section TrainClaims.
Import Script train_py.

(** C5.  After a training run of [n] epochs the metric history has
    exactly [n] entries.  When [n] is positive the checkpoint holds the
    parameters of an epoch [k] whose recorded validation loss is the least
    of the run and strictly below that of every earlier epoch.  In each
    epoch the checkpoint is overwritten with the current parameters when
    the validation loss is strictly below all earlier ones, and left as
    it is when some earlier loss is not above it. *)
Theorem best_checkpoint_after_training {Params X Sched : Type}
    (sample_loss : Params -> X -> Q) (correct : Params -> X -> bool)
    (opt_step : Q -> Params -> list X -> Params)
    (sched_lr : Sched -> Q) (sched_step : Sched -> Q -> Sched)
    (r : reduction) (tr_batches val_batches : list (list X))
    (p0 : Params) (s0 : Sched) (n : nat) :
  let run := train sample_loss correct opt_step sched_lr sched_step
               r tr_batches val_batches p0 s0 in
  length (history (run n)) = n
  ∧ ((0 < n)%nat ->
     exists k m,
       (k < n)%nat
       ∧ history (run n) !! k = Some m
       ∧ checkpoint (run n) = Some (params (run (S k)))
       ∧ (forall j m', history (run n) !! j = Some m' ->
                       (val_loss m <= val_loss m')%Q)
       ∧ (forall j m', (j < k)%nat -> history (run n) !! j = Some m' ->
                       (val_loss m < val_loss m')%Q))
  ∧ (forall i m,
       history (run (S i)) !! i = Some m ->
       ((forall m', m' ∈ history (run i) -> (val_loss m < val_loss m')%Q) ->
        checkpoint (run (S i)) = Some (params (run (S i))))
       ∧ ((exists m', m' ∈ history (run i) ∧ (val_loss m' <= val_loss m)%Q) ->
          checkpoint (run (S i)) = checkpoint (run i))).
Proof.
  intros run. split; [apply history_length|]. split.
  - intros Hn. destruct n as [|n]; [lia|].
    destruct (best_after_epochs sample_loss correct opt_step sched_lr sched_step
                r tr_batches val_batches p0 s0 n)
      as (k & Hk & m & Hm & Hc & _ & Hmin & Hfirst).
    exists k, m. auto.
  - intros i m. apply checkpoint_overwrite.
Qed.

Lemma best_checkpoint_after_training_witness :
  exists k m,
    (k < 3)%nat
    ∧ history (toy_train 3) !! k = Some m
    ∧ checkpoint (toy_train 3) = Some (params (toy_train (S k)))
    ∧ (forall j m', history (toy_train 3) !! j = Some m' ->
                    (val_loss m <= val_loss m')%Q)
    ∧ (forall j m', (j < k)%nat -> history (toy_train 3) !! j = Some m' ->
                    (val_loss m < val_loss m')%Q).
Proof.
  refine (proj1 (proj2 (best_checkpoint_after_training _ _ _ _ _ _ _ _ _ _ 3)) _).
  lia.
Defined.

(** C6.  Every loss function that [main] creates is created with the
    reduction [sum], and it is the one [train] is called with.  Under
    this reduction every batch of the training phase adds the sum of the
    losses of its samples to the running loss, not their mean.  In a run
    of [train], the training loss recorded for an epoch in the history is
    the sum of the losses of all samples seen in that epoch, one per
    sample of the training set, divided by the size of the training set;
    the validation loss recorded is the sum of the losses of the
    validation samples, under the parameters the epoch ends with,
    divided by the size of the validation set. *)
Theorem loss_summed_then_divided_by_dataset_size :
  (forall {W : Type} (h : handler run_py.ret W) (w : W) (args : run_py.Namespace),
     Forall (fun c => forall r, run_py.reduction_of c = Some r -> r = "sum")
       (calls (exec h (run_py.main args) w))
     ∧ (forall f,
          run_py.trained_with (calls (exec h (run_py.main args) w)) = Some f ->
          run_py.loss_created (trace (exec h (run_py.main args) w))
          = Some ("sum", f)))
  ∧ reduction_of_string "sum" = Some Sum
  ∧ (forall {Params X : Type} (sample_loss : Params -> X -> Q)
            (correct : Params -> X -> bool)
            (opt_step : Q -> Params -> list X -> Params)
            (lr : Q) (p : Params) (batches : list (list X)) (batch : list X),
       let before := train_phase sample_loss correct opt_step Sum lr p batches in
       (running_loss
          (train_phase sample_loss correct opt_step Sum lr p (batches ++ [batch]))
        == running_loss before
           + Qsum (map (sample_loss (params_now before)) batch))%Q)
  ∧ (forall {Params X Sched : Type} (sample_loss : Params -> X -> Q)
            (correct : Params -> X -> bool)
            (opt_step : Q -> Params -> list X -> Params)
            (sched_lr : Sched -> Q) (sched_step : Sched -> Q -> Sched)
            (tr_batches val_batches : list (list X))
            (p0 : Params) (s0 : Sched) (n i : nat) (m : metrics),
       let run := train sample_loss correct opt_step sched_lr sched_step
                    Sum tr_batches val_batches p0 s0 in
       history (run n) !! i = Some m ->
       let seen := losses_seen sample_loss opt_step
                     (sched_lr (sched (run i))) (params (run i)) tr_batches in
       length seen = dataset_size tr_batches
       ∧ (train_loss m == Qsum seen / Qnat (dataset_size tr_batches))%Q
       ∧ (val_loss m
          == Qsum (map (sample_loss (params (run (S i)))) (concat val_batches))
             / Qnat (dataset_size val_batches))%Q).
Proof.
  split; [|split; [reflexivity|split]].
  - intros W h w args. apply main_loss_is_sum.
  - intros. apply train_phase_snoc.
  - intros Params X Sched sample_loss correct opt_step sched_lr sched_step
      tr_batches val_batches p0 s0 n i m run Hm seen.
    split; [apply losses_seen_length|].
    destruct (history_at sample_loss correct opt_step sched_lr sched_step
                Sum tr_batches val_batches p0 s0 n i m Hm) as [_ He].
    exact (epoch_records_mean sample_loss correct opt_step sched_lr sched_step
             tr_batches val_batches (run i) m He).
Qed.

End TrainClaims.

(** ** The evaluation engine *)

Section TestFacts.
Import Py test_py.
Context {Params X : Type}.
Variable n_out : nat.
Variable logit : Params -> X -> nat -> Q.

Lemma argmax_lt (f : nat -> Q) (n : nat) : (0 < n)%nat -> (argmax f n < n)%nat.
Proof.
  induction n as [|n IH]; [lia|]. intros _. cbn [argmax].
  destruct n as [|n]; [lia|].
  destruct (Qlt_le_dec _ _); [lia|].
  assert (argmax f (S n) < S n)%nat by (apply IH; lia). lia.
Qed.

(** The value at the result is the largest, and the first such. *)
Lemma argmax_spec (f : nat -> Q) (n : nat) :
  (forall j, (j < n)%nat -> (f j <= f (argmax f n))%Q)
  ∧ (forall j, (j < argmax f n)%nat -> (f j < f (argmax f n))%Q).
Proof.
  induction n as [|n [IHmax IHfirst]]; [split; cbn [argmax]; intros; lia|].
  cbn [argmax]. destruct n as [|n].
  - split; intros j Hj; [|lia]. replace j with 0%nat by lia. apply Qle_refl.
  - destruct (Qlt_le_dec _ _) as [Hlt|Hle]; split; intros j Hj.
    + destruct (decide (j = S n)) as [->|]; [apply Qle_refl|].
      apply Qlt_le_weak. eapply Qle_lt_trans; [apply IHmax; lia|exact Hlt].
    + eapply Qle_lt_trans; [apply IHmax; lia|exact Hlt].
    + destruct (decide (j = S n)) as [->|]; [exact Hle|]. apply IHmax. lia.
    + apply IHfirst. exact Hj.
Qed.

Lemma count_equal_dataset (p : Params) (dataset : list (X * nat)) :
  count_equal (map snd dataset) (map (fun s => predict n_out logit p s.1) dataset)
  = length (filter (fun s : X * nat => s.2 = predict n_out logit p s.1) dataset).
Proof.
  unfold count_equal.
  induction dataset as [|[x l] d IH]; [reflexivity|].
  cbn [map zip zip_with fst snd]. rewrite !filter_cons. cbn [fst snd].
  destruct (decide (l = predict n_out logit p x)); cbn [length]; now rewrite IH.
Qed.

Lemma sum_list_snoc (l : list nat) (n : nat) :
  sum_list (l ++ [n]) = (sum_list l + n)%nat.
Proof. induction l as [|a l IH]; cbn; lia. Qed.

(** A row of the matrix sums to the samples of its class whose
    prediction is a column. *)
Lemma row_sum (targets outputs : list nat) (i n : nat) :
  sum_list (map (cell targets outputs i) (seq 0 n))
  = length (filter (fun to : nat * nat => to.1 = i ∧ (to.2 < n)%nat)
              (zip targets outputs)).
Proof.
  unfold cell. generalize (zip targets outputs) as l. intros l.
  induction n as [|n IH].
  - cbn. induction l as [|a l IHl]; [reflexivity|].
    rewrite filter_cons. destruct (decide _) as [[_ H]|]; [lia|exact IHl].
  - rewrite seq_S, map_app. cbn [map Nat.add]. rewrite sum_list_snoc, IH.
    clear IH.
    induction l as [|a l IHl]; [reflexivity|].
    rewrite !filter_cons.
    destruct (decide (a.1 = i ∧ (a.2 < n)%nat)) as [[H1 H2]|H1];
      destruct (decide (a.1 = i ∧ a.2 = n)) as [[H3 H4]|H3];
      destruct (decide (a.1 = i ∧ (a.2 < S n)%nat)) as [[H5 H6]|H5];
      cbn [length]; try lia.
    all: exfalso; first [apply H5; split; [tauto|lia]
                        | apply H1; split; [tauto|]; apply Nat.le_neq;
                          split; [lia|]; intros ->; tauto
                        | lia ].
Qed.

Lemma filter_zip_targets (p : Params) (dataset : list (X * nat)) (i : nat) :
  (0 < n_out)%nat ->
  length (filter (fun to : nat * nat => to.1 = i ∧ (to.2 < n_out)%nat)
            (zip (map snd dataset)
                 (map (fun s => predict n_out logit p s.1) dataset)))
  = length (filter (fun s : X * nat => s.2 = i) dataset).
Proof.
  intros Hn. induction dataset as [|[x l] d IH]; [reflexivity|].
  cbn [map zip zip_with fst snd]. rewrite !filter_cons. cbn [fst snd].
  pose proof (argmax_lt (logit p x) n_out Hn) as Hlt.
  fold (predict n_out logit p x) in Hlt.
  destruct (decide (l = i ∧ _)) as [[H1 H2]|H1];
    destruct (decide (l = i)) as [H3|H3]; cbn [length]; try (rewrite IH; lia).
  all: first [tauto | exfalso; apply H1; tauto].
Qed.

End TestFacts.

Section TestClaims.
Import Py test_py.

(** C7.  The evaluation engine fails only on an empty test split.
    Otherwise it records the true label and the predicted class of every
    sample, the predicted class being an index of a largest logit (the
    first one), and the accuracy is the number of samples whose predicted
    class equals the true label, divided by the number of samples.  The
    confusion matrix is refused only when the label dictionary does not
    have as many classes as the model has outputs; otherwise it has one
    row and one column per class, and each row sums to the number of test
    samples whose true label is the class of the row. *)
Theorem accuracy_and_confusion_rows {Params X : Type} (n_out : nat)
    (logit : Params -> X -> nat -> Q) (p : Params) (dataset : list (X * nat))
    (labels_dict : gmap string nat) (all_cats : list string) :
  match test n_out logit p dataset with
  | inl _ => dataset = []
  | inr (targets, outputs, accuracy) =>
      targets = map snd dataset
      ∧ outputs = map (fun s => predict n_out logit p s.1) dataset
      ∧ (forall x j, (j < n_out)%nat ->
                     (logit p x j <= logit p x (predict n_out logit p x))%Q)
      ∧ (accuracy * inject_Z (Z.of_nat (length dataset))
         == inject_Z (Z.of_nat
               (length (filter (fun s : X * nat =>
                                  s.2 = predict n_out logit p s.1) dataset))))%Q
      ∧ match get_confusion_matrix n_out targets outputs labels_dict all_cats with
        | inl _ => size labels_dict <> n_out
        | inr matrix =>
            length matrix = n_out
            ∧ forall i row,
                matrix !! i = Some row ->
                length row = n_out
                ∧ sum_list row
                  = length (filter (fun s : X * nat => s.2 = i) dataset)
        end
  end.
Proof.
  unfold test. destruct dataset as [|s d] eqn:Ed; [reflexivity|]. rewrite <- Ed.
  assert (Hne : (0 < length dataset)%nat) by (rewrite Ed; cbn; lia).
  clear Ed s d.
  split; [reflexivity|]. split; [reflexivity|]. split.
  { intros x j Hj. apply (argmax_spec (logit p x) n_out). exact Hj. }
  split.
  { rewrite count_equal_dataset. field.
    intros H. unfold Qeq in H. cbn in H. lia. }
  unfold get_confusion_matrix. destruct (decide _) as [Hs|Hs]; [|exact Hs].
  split; [now rewrite length_map, length_seq|].
  intros i row Hrow.
  apply list_lookup_fmap_Some in Hrow as (i' & -> & Hi).
  apply lookup_seq in Hi as [-> Hi]. cbn [Nat.add].
  split; [now rewrite length_map, length_seq|].
  rewrite row_sum. apply filter_zip_targets. lia.
Qed.

End TestClaims.

(** ** The dataset splitter *)

Section SplitFacts.
Import Py Np video_datasets_py.






End SplitFacts.

Section SplitClaims.
Import Py Np video_datasets_py.



End SplitClaims.

(** ** Sequencing and loops of scripts *)

Section LoopFacts.
Import Py Script.
Context {call : Type} {ret : call -> Type} {W : Type} (h : handler ret W).

Lemma after_and_then {A B} (e : event ret) (o : outcome (ret:=ret) W A)
    (k : A -> W -> outcome (ret:=ret) W B) :
  after e (and_then o k) = and_then (after e o) k.
Proof. unfold after, and_then. cbn. destruct (result o); reflexivity. Qed.

(** Running [p] and then [f] is the run of [p] followed by that of [f]. *)
Lemma exec_bind {A B} (p : prog ret A) (f : A -> prog ret B) (w : W) :
  exec h (bind f p) w = and_then (exec h p w) (fun a w' => exec h (f a) w').
Proof.
  revert w. induction p as [a|e|c k IH]; intros w; cbn [exec bind].
  - unfold and_then. cbn. now destruct (exec h (f a) w).
  - reflexivity.
  - destruct (h c w) as [[e|x] w']; [reflexivity|].
    now rewrite IH, after_and_then.
Qed.

Lemma calls_and_then_Forall {A B} (P : call -> Prop)
    (o : outcome (ret:=ret) W A) (k : A -> W -> outcome (ret:=ret) W B) :
  Forall P (calls o) -> (forall a w, Forall P (calls (k a w))) ->
  Forall P (calls (and_then o k)).
Proof.
  intros Ho Hk. unfold and_then, calls in *. destruct (result o); cbn [trace].
  - exact Ho.
  - rewrite map_app. apply Forall_app. auto.
Qed.

(** A property of every call of the body holds of every call of the
    loop. *)
Lemma for_each_Forall {A} (P : call -> Prop) (l : list A)
    (body : A -> prog ret unit) (w : W) :
  (forall x w', Forall P (calls (exec h (body x) w'))) ->
  Forall P (calls (exec h (for_each l body) w)).
Proof.
  intros Hb. revert w. induction l as [|x l IH]; intros w; cbn [for_each].
  - constructor.
  - rewrite exec_bind. apply calls_and_then_Forall; auto.
Qed.

(** When the loop returns, the body has run and returned for every
    element, and its log is a stretch of the log of the loop. *)
Lemma for_each_complete {A} (l : list A) (body : A -> prog ret unit) (w : W)
    (x : A) :
  result (exec h (for_each l body) w) = inr tt ->
  x ∈ l ->
  exists w' pre post,
    result (exec h (body x) w') = inr tt
    ∧ trace (exec h (for_each l body) w)
      = pre ++ trace (exec h (body x) w') ++ post.
Proof.
  revert w. induction l as [|y l IH]; intros w Hr Hx; [inversion Hx|].
  cbn [for_each] in *. rewrite exec_bind in *. unfold and_then in *.
  destruct (result (exec h (body y) w)) as [e|[]] eqn:Ey; [discriminate|].
  cbn [result trace] in *.
  apply elem_of_cons in Hx as [->|Hx].
  - exists w, [], (trace (exec h (for_each l body) (final (exec h (body y) w)))).
    split; [exact Ey|reflexivity].
  - destruct (IH _ Hr Hx) as (w' & pre & post & Hw' & Ht).
    exists w', (trace (exec h (body y) w) ++ pre), post.
    split; [exact Hw'|]. rewrite Ht. now rewrite <- app_assoc.
Qed.

End LoopFacts.

(** ** [preprocess.py] *)

Section PreprocessFacts.
Import Py Script preprocess_py.
Context {W : Type} (h : handler ret W).

(** A file whose name does not end in [.avi] is skipped without a call. *)
Lemma process_file_skips video_dir store_path dir filename w :
  endswith filename ".avi" = false ->
  exec h (process_file video_dir store_path dir filename) w
  = Outcome (inr tt) w [].
Proof. intros H. unfold process_file. now rewrite H. Qed.

(** The calls made for a file whose name ends in [.avi]. *)
Lemma process_file_avi video_dir store_path dir filename w :
  endswith filename ".avi" = true ->
  let o := exec h (process_file video_dir store_path dir filename) w in
  Forall (well_placed video_dir store_path) (calls o)
  ∧ (result o = inr tt ->
     exists frames v_len,
       trace o = extracted video_dir store_path dir filename frames v_len).
Proof.
  intros H. unfold process_file, extracted. rewrite H. script_simpl.
  run_through h; (split; [each_call; cbn [well_placed]; eauto 6|]);
    intros Hr; try discriminate.
  repeat match goal with u : unit |- _ => destruct u end. eauto.
Qed.

Lemma process_file_placed video_dir store_path dir filename w :
  Forall (well_placed video_dir store_path)
    (calls (exec h (process_file video_dir store_path dir filename) w)).
Proof.
  destruct (endswith filename ".avi") eqn:E.
  - now apply process_file_avi.
  - rewrite process_file_skips by exact E. constructor.
Qed.

Lemma process_dir_placed video_dir store_path dir w :
  Forall (well_placed video_dir store_path)
    (calls (exec h (process_dir video_dir store_path dir) w)).
Proof.
  unfold process_dir. script_simpl.
  answer h; [script_done; each_call; exact I|].
  answer h; [script_done; each_call; exact I|].
  rewrite !calls_after. cbn [ev_call]. constructor; [exact I|].
  constructor; [exact I|].
  apply for_each_Forall. intros. apply process_file_placed.
Qed.

Lemma preprocess_video_placed root store_path w :
  Forall (well_placed (os_path_join root ["UCF50_video"]) store_path)
    (calls (exec h (preprocess_video root store_path) w)).
Proof.
  unfold preprocess_video. script_simpl.
  answer h; [script_done; each_call; exact I|].
  destruct r; script_simpl.
  - answer h; [script_done; each_call; exact I|].
    rewrite !calls_after. cbn [ev_call]. do 2 (constructor; [exact I|]).
    apply for_each_Forall. intros. apply process_dir_placed.
  - answer h; [script_done; each_call; cbn [well_placed]; auto|].
    answer h; [script_done; each_call; cbn [well_placed]; auto|].
    rewrite !calls_after. cbn [ev_call].
    constructor; [exact I|]. constructor; [reflexivity|].
    constructor; [exact I|].
    apply for_each_Forall. intros. apply process_dir_placed.
Qed.

(** When the run over a class folder returns, the folder was listed and
    frames were extracted and stored for every listed [.avi] file. *)
Lemma process_dir_complete video_dir store_path dir w :
  let o := exec h (process_dir video_dir store_path dir) w in
  result o = inr tt ->
  exists filenames,
    Event (os_listdir (os_path_join video_dir [dir])) (inr filenames) ∈ trace o
    ∧ forall f, f ∈ filenames -> endswith f ".avi" = true ->
        exists frames v_len pre post,
          trace o
          = pre ++ extracted video_dir store_path dir f frames v_len ++ post.
Proof.
  unfold process_dir. script_simpl.
  answer h; [script_done; intros; discriminate|].
  answer h; [script_done; intros; discriminate|].
  rewrite !result_after, !trace_after. intros Hr.
  exists r0. split; [set_solver|].
  intros f Hf Havi.
  destruct (for_each_complete h _ _ _ f Hr Hf) as (w' & pre & post & Hw' & Ht).
  destruct (process_file_avi video_dir store_path dir f w' Havi) as [_ Htr].
  destruct (Htr Hw') as (frames & v_len & Hf4).
  exists frames, v_len. rewrite Ht, Hf4.
  eexists (_ :: _ :: pre), post. reflexivity.
Qed.

End PreprocessFacts.

(** ** Runs that stop at the first failing call *)

Section StopsFacts.
Import Py Script preprocess_py.

Lemma stops_and_then {W A B : Type} (o : outcome (ret:=ret) W A)
    (k : A -> W -> outcome (ret:=ret) W B) :
  stops_at_failure o -> (forall a w, stops_at_failure (k a w)) ->
  stops_at_failure (and_then o k).
Proof.
  intros [[Hok [r Hr]]|(pre & c & e & Ht & Hr & Hpre)] Hk; unfold and_then.
  - rewrite Hr. unfold all_ok in *.
    destruct (Hk r (final o)) as [[Hok' [r' Hr']]|(pre & c & e & Ht & Hr' & Hpre)].
    + left. cbn [trace result]. split; [|eauto].
      unfold all_ok in *. cbn [trace]. rewrite forallb_app, Hok. exact Hok'.
    + right. exists (trace o ++ pre), c, e. cbn [trace result].
      rewrite Ht, app_assoc. split; [reflexivity|]. split; [exact Hr'|].
      now rewrite forallb_app, Hok, Hpre.
  - rewrite Hr. right. exists pre, c, e. cbn [trace result]. auto.
Qed.

Lemma stops_for_each {W A : Type} (h : handler ret W) (l : list A)
    (body : A -> prog ret unit) (w : W) :
  (forall x w', stops_at_failure (exec h (body x) w')) ->
  stops_at_failure (exec h (for_each l body) w).
Proof.
  intros Hb. revert w. induction l as [|x l IH]; intros w; cbn [for_each].
  - left. split; [reflexivity|]. exists tt. reflexivity.
  - rewrite exec_bind. apply stops_and_then; auto.
Qed.

Lemma stops_after {W A : Type} (c : call) (x : ret c)
    (o : outcome (ret:=ret) W A) :
  stops_at_failure o -> stops_at_failure (after (Event c (inr x)) o).
Proof.
  intros [[Hok [r Hr]]|(pre & c' & e & Ht & Hr & Hpre)].
  - left. rewrite all_ok_after, result_after. split; [exact Hok|eauto].
  - right. exists (Event c (inr x) :: pre), c', e.
    rewrite trace_after, result_after, Ht. split; [reflexivity|].
    split; [exact Hr|exact Hpre].
Qed.

Lemma stops_failed {W A : Type} (c : call) (e : exn) (w : W) :
  stops_at_failure (Outcome (R:=A) (inl e) w [Event c (inl e)]).
Proof. right. exists [], c, e. auto. Qed.

Lemma stops_process_file {W : Type} (h : handler ret W)
    video_dir store_path dir filename w :
  stops_at_failure (exec h (process_file video_dir store_path dir filename) w).
Proof.
  unfold process_file. destruct (endswith filename ".avi").
  - script_simpl.
    repeat (answer h; [apply stops_failed || (repeat apply stops_after;
                                              apply stops_failed)|]).
    left. script_done. split; [reflexivity|eauto].
  - left. split; [reflexivity|]. exists tt. reflexivity.
Qed.

Lemma stops_process_dir {W : Type} (h : handler ret W)
    video_dir store_path dir w :
  stops_at_failure (exec h (process_dir video_dir store_path dir) w).
Proof.
  unfold process_dir. script_simpl.
  answer h; [apply stops_failed|].
  answer h; [apply stops_after, stops_failed|].
  do 2 apply stops_after.
  apply stops_for_each. intros. apply stops_process_file.
Qed.

Lemma stops_preprocess_video {W : Type} (h : handler ret W)
    root store_path w :
  stops_at_failure (exec h (preprocess_video root store_path) w).
Proof.
  unfold preprocess_video. script_simpl.
  answer h; [apply stops_failed|].
  destruct r; script_simpl.
  - answer h; [apply stops_after, stops_failed|].
    do 2 apply stops_after. apply stops_for_each. intros.
    apply stops_process_dir.
  - answer h; [apply stops_after, stops_failed|].
    answer h; [do 2 apply stops_after; apply stops_failed|].
    do 3 apply stops_after. apply stops_for_each. intros.
    apply stops_process_dir.
Qed.

End StopsFacts.


Section PreprocessWhole.
Import Py Script preprocess_py.
Context {W : Type} (h : handler ret W).

Lemma preprocess_video_complete root store_path w :
  let video_dir := os_path_join root ["UCF50_video"] in
  let o := exec h (preprocess_video root store_path) w in
  result o = inr tt -> all_extracted video_dir store_path (trace o).
Proof.
  intros video_dir. unfold preprocess_video. fold video_dir. script_simpl.
  answer h; [script_done; intros; discriminate|].
  assert (Hloop : forall dirs w' (pre : list (event ret)),
             result (exec h (for_each dirs (process_dir video_dir store_path)) w')
             = inr tt ->
             forall dir, dir ∈ dirs ->
               exists filenames,
                 Event (os_listdir (os_path_join video_dir [dir]))
                   (inr filenames)
                   ∈ pre ++ trace (exec h (for_each dirs
                                     (process_dir video_dir store_path)) w')
                 ∧ forall f, f ∈ filenames -> endswith f ".avi" = true ->
                     exists frames v_len pre' post,
                       pre ++ trace (exec h (for_each dirs
                                       (process_dir video_dir store_path)) w')
                       = pre' ++ extracted video_dir store_path dir f
                                   frames v_len ++ post).
  { intros dirs w' pre Hr dir Hd.
    destruct (for_each_complete h _ _ _ dir Hr Hd)
      as (w'' & pre1 & post1 & Hw'' & Ht).
    destruct (process_dir_complete h video_dir store_path dir w'' Hw'')
      as (fs & Hfs & Hfiles).
    exists fs. split.
    { rewrite Ht. rewrite !elem_of_app. auto. }
    intros f Hf Havi.
    destruct (Hfiles f Hf Havi) as (fr & vl & pre2 & post2 & Hd2).
    exists fr, vl, (pre ++ pre1 ++ pre2), (post2 ++ post1).
    rewrite Ht, Hd2. now rewrite <- !app_assoc. }
  destruct r; script_simpl.
  - answer h; [script_done; intros; discriminate|].
    rewrite !result_after, !trace_after. intros Hr. exists r.
    split; [set_solver|]. intros dir Hd.
    exact (Hloop r _ [_; _] Hr dir Hd).
  - answer h; [script_done; intros; discriminate|].
    answer h; [script_done; intros; discriminate|].
    rewrite !result_after, !trace_after. intros Hr. exists r0.
    split; [set_solver|]. intros dir Hd.
    exact (Hloop r0 _ [_; _; _] Hr dir Hd).
Qed.

(** A listing that returned is among the listings of the log. *)
Lemma listings_elem (t : list (event ret)) (p : string) (l : list string) :
  Event (os_listdir p) (inr l) ∈ t -> (p, l) ∈ listings t.
Proof.
  intros H. unfold listings. apply list_elem_of_omap.
  exists (Event (os_listdir p) (inr l)). split; [exact H|reflexivity].
Qed.

End PreprocessWhole.

Section PreprocessClaims.
Import Py Script preprocess_py.

(** C10.  In every run of [preprocess_video], also one that fails on
    the way, frames are requested only from files below the video folder
    whose names end in [.avi], always sixteen of them, and are stored only
    under [store_path], in the folder of the class and of the part of the
    file name before the first dot.  The function raises nothing of its
    own: when all its calls return it returns, and otherwise it ends
    with the exception of its last call.  A file with another name is
    skipped without any call.  For a file whose name ends in [.avi] the
    calls are, in this order, the print of the name, the request of
    sixteen frames, the creation of the folder of the video if it does
    not exist, and the storing of the frames obtained.  When all calls
    return, the video folder was listed, every class folder in it was
    listed, and these four calls were made, one after the other, for
    every such file of every class folder. *)
Theorem preprocess_extracts_avi_only {W : Type} (h : handler ret W) (w : W)
    (root store_path : string) :
  let video_dir := os_path_join root ["UCF50_video"] in
  let o := exec h (preprocess_video root store_path) w in
  Forall (well_placed video_dir store_path) (calls o)
  ∧ stops_at_failure o
  ∧ (forall dir filename w',
       endswith filename ".avi" = false ->
       exec h (process_file video_dir store_path dir filename) w'
       = Outcome (inr tt) w' [])
  ∧ (forall dir filename w',
       endswith filename ".avi" = true ->
       result (exec h (process_file video_dir store_path dir filename) w')
       = inr tt ->
       exists frames v_len,
         trace (exec h (process_file video_dir store_path dir filename) w')
         = [Event (print filename) (inr tt);
            Event (get_frames (os_path_join video_dir [dir; filename]) 16)
              (inr (frames, v_len));
            Event (os_makedirs
                     (os_path_join store_path [dir; split_head "." filename])
                     true) (inr tt);
            Event (store_frames frames
                     (os_path_join store_path [dir; split_head "." filename]))
              (inr tt)])
  ∧ (all_ok o = true ->
     result o = inr tt
     ∧ exists dirs,
         Event (os_listdir video_dir) (inr dirs) ∈ trace o
         ∧ forall dir, dir ∈ dirs ->
             exists filenames,
               Event (os_listdir (os_path_join video_dir [dir]))
                 (inr filenames) ∈ trace o
               ∧ forall f, f ∈ filenames -> endswith f ".avi" = true ->
                   exists frames v_len pre post,
                     trace o
                     = pre
                       ++ [Event (print f) (inr tt);
                           Event (get_frames
                                    (os_path_join video_dir [dir; f]) 16)
                             (inr (frames, v_len));
                           Event (os_makedirs
                                    (os_path_join store_path
                                       [dir; split_head "." f]) true)
                             (inr tt);
                           Event (store_frames frames
                                    (os_path_join store_path
                                       [dir; split_head "." f]))
                             (inr tt)]
                       ++ post).
Proof.
  intros video_dir o. split; [apply preprocess_video_placed|].
  pose proof (stops_preprocess_video h root store_path w) as Hstop.
  fold o in Hstop. split; [exact Hstop|].
  split; [intros; now apply process_file_skips|].
  split.
  - intros dir filename w' Havi.
    exact (proj2 (process_file_avi h video_dir store_path dir filename w' Havi)).
  - intros Hok.
    assert (Hr : result o = inr tt).
    { destruct Hstop as [[_ [[] Hr]]|(pre & c & e & Ht & _ & _)]; [exact Hr|].
      unfold all_ok in Hok. rewrite Ht, forallb_app in Hok.
      cbn in Hok. rewrite andb_false_r in Hok. discriminate. }
    split; [exact Hr|].
    exact (preprocess_video_complete h root store_path w Hr).
Qed.

Lemma preprocess_extracts_avi_only_witness :
  let o := exec tree_env (preprocess_video "/repo" "/repo/UCF50") [] in
  result o = inr tt
  ∧ exists frames v_len pre post,
      trace o
      = pre
        ++ [Event (print "v.old.avi") (inr tt);
            Event (get_frames "/repo/UCF50_video/Biking/v.old.avi" 16)
              (inr (frames, v_len));
            Event (os_makedirs "/repo/UCF50/Biking/v" true) (inr tt);
            Event (store_frames frames "/repo/UCF50/Biking/v") (inr tt)]
        ++ post.
Proof.
  intros o.
  pose proof (preprocess_extracts_avi_only tree_env [] "/repo" "/repo/UCF50")
    as (_ & _ & _ & _ & Hall).
  assert (Hok : all_ok o = true) by (vm_compute; reflexivity).
  destruct (Hall Hok) as (Hr & dirs & Hdirs & Hfiles).
  split; [exact Hr|].
  apply listings_elem in Hdirs. vm_compute in Hdirs.
  assert (Hd : "Biking" ∈ dirs).
  { repeat (apply elem_of_cons in Hdirs as [Hdirs|Hdirs];
            [try discriminate Hdirs|]).
    - injection Hdirs as ->. apply elem_of_cons. now left.
    - inversion Hdirs. }
  destruct (Hfiles "Biking" Hd) as (fs & Hfs & Hf).
  apply listings_elem in Hfs. vm_compute in Hfs.
  assert (Hv : "v.old.avi" ∈ fs).
  { repeat (apply elem_of_cons in Hfs as [Hfs|Hfs];
            [try discriminate Hfs|]).
    - injection Hfs as ->. do 2 (apply elem_of_cons; right).
      apply elem_of_cons. now left.
    - inversion Hfs. }
  assert (Havi : endswith "v.old.avi" ".avi" = true) by (vm_compute; reflexivity).
  exact (Hf "v.old.avi" Hv Havi).
Defined.

End PreprocessClaims.

(** ** The training and evaluation claims on concrete inputs *)

Lemma loss_summed_then_divided_by_dataset_size_witness :
  run_py.loss_created
    (Script.trace
       (Script.exec demo.env (run_py.main (demo.arguments "train")) demo.start))
  = Some ("sum", Py.Obj 10)
  ∧ exists m,
      train_py.history (train_py.toy_train 2) !! 1%nat = Some m
      ∧ (train_py.train_loss m == 1 # 3)%Q
      ∧ (train_py.val_loss m == 4)%Q.
Proof.
  destruct loss_summed_then_divided_by_dataset_size as (Hmain & _ & _ & Hloop).
  split.
  - refine (proj2 (Hmain _ demo.env demo.start (demo.arguments "train"))
              (Py.Obj 10) _).
    vm_compute. reflexivity.
  - destruct (train_py.history (train_py.toy_train 2) !! 1%nat) as [m|] eqn:E;
      [|vm_compute in E; discriminate E].
    exists m. split; [reflexivity|].
    destruct (Hloop Q Q Q (fun p x => (p - x) * (p - x))%Q
                (fun p x => Qeq_bool p x) (fun lr p _ => (p + lr)%Q)
                (fun s => s) (fun s _ => s)
                [[1; 2]; [3]]%Q [[2]]%Q 0%Q 1%Q 2%nat 1%nat m E)
      as (_ & Ht & Hv).
    split.
    + rewrite Ht. vm_compute. reflexivity.
    + rewrite Hv. vm_compute. reflexivity.
Defined.

Lemma accuracy_and_confusion_rows_witness :
  match test_py.test 2 test_py.constant_logit tt test_py.ten_samples with
  | inl _ => False
  | inr (targets, outputs, accuracy) =>
      (accuracy * inject_Z 10 == inject_Z 6)%Q
      ∧ match test_py.get_confusion_matrix 2 targets outputs
                {[ "c0" := 0%nat; "c1" := 1%nat ]} ["c0"; "c1"] with
        | inl _ => False
        | inr matrix => sum_list <$> matrix = [6; 4]%nat
        end
  end.
Proof.
  pose proof (accuracy_and_confusion_rows 2 test_py.constant_logit tt
                test_py.ten_samples {[ "c0" := 0%nat; "c1" := 1%nat ]}
                ["c0"; "c1"]) as H.
  destruct (test_py.test 2 test_py.constant_logit tt test_py.ten_samples)
    as [e|[[targets outputs] accuracy]] eqn:E; [discriminate H|].
  destruct H as (-> & -> & _ & Hacc & Hm). split; [exact Hacc|].
  destruct (test_py.get_confusion_matrix _ _ _ _ _) as [e|matrix] eqn:Em.
  - apply Hm. vm_compute. reflexivity.
  - destruct Hm as [Hlen Hrows].
    destruct matrix as [|r0 [|r1 [|]]]; try discriminate Hlen.
    change (sum_list <$> [r0; r1]) with [sum_list r0; sum_list r1].
    destruct (Hrows 0%nat r0 eq_refl) as [_ ->].
    destruct (Hrows 1%nat r1 eq_refl) as [_ ->].
    reflexivity.
Defined.

(** * Further properties of [run.py] *)

Section RunMore.
Import Py Np Script run_py.

(** [args_parser] returns a namespace exactly when the three required
    options are given, with the given values for them; otherwise it exits
    with status 2 and a message that names the missing ones in the order
    of their declaration.  An option [--pretrained] given on the command
    line is kept as a string: it is the default [True] only when the
    option is absent. *)
Theorem args_parser_required (a : argv) :
  (missing_required a = [] <-> exists ns, args_parser a = inr ns)
  ∧ (forall e, args_parser a = inl e ->
       e = SystemExit 2 ("the following arguments are required: "
                           ++ join_comma (missing_required a))%string
       ∧ missing_required a <> [])
  ∧ (forall ns, args_parser a = inr ns ->
       given_n_classes a = Some (n_classes ns)
       ∧ given_mode a = Some (mode ns)
       ∧ given_batch_size a = Some (batch_size ns)
       ∧ (pretrained ns = PyTrue <-> given_pretrained a = None)).
Proof.
  unfold args_parser, missing_required.
  destruct (given_n_classes a) as [nc|], (given_mode a) as [m|],
    (given_batch_size a) as [bs|]; cbn [app].
  1: { split; [split; eauto|]. split; [intros e H; discriminate|].
       intros ns H. injection H as <-. cbn.
       repeat split; try reflexivity;
         destruct (given_pretrained a); cbn; congruence. }
  all: split; [split; [discriminate|intros [ns H]; discriminate]|].
  all: split; [intros e H; injection H as <-; split; [reflexivity|discriminate]
              |intros ns H; discriminate].
Qed.

Lemma args_parser_required_witness :
  given_mode (demo.command "train") = Some "train"
  ∧ exists ns, args_parser (demo.command "train") = inr ns.
Proof.
  pose proof (args_parser_required (demo.command "train")) as (Hiff & _ & Hok).
  destruct (proj1 Hiff eq_refl) as [ns Hns].
  destruct (Hok ns Hns) as (_ & Hm & _).
  split; [|exists ns; exact Hns].
  rewrite Hm. f_equal. vm_compute in Hns. injection Hns as <-. reflexivity.
Defined.

(** The log of a train-mode run in which every call returns: setup,
    indexing and splitting by the proportions given, the saving of the
    record, the training dataset with the training transforms and the
    validation dataset with the other ones, the loaders, the summed loss,
    Adam on the parameters of the model with the learning rate given, the
    plateau scheduler with factor 1/2 and patience 5, the folder
    [./models], and [train] on all of these for the epochs given.  The
    test split only goes into the record, and the label dictionary of
    [load_dataset] goes nowhere. *)
Theorem train_run_log {W : Type} (h : handler ret W) (w : W)
    (args : Namespace) :
  mode args = "train" ->
  all_ok (exec h (main args) w) = true ->
  result (exec h (main args) w) = inr tt
  ∧ exists cuda hh ww mean std trt vt model ds ld tr val ts trd vd dl lf ps
           opt sch trained,
      trace (exec h (main args) w)
      = [Event cuda_is_available (inr cuda);
         Event (transform_stats (model_type args)) (inr (hh, ww, mean, std));
         Event (compose_data_transforms hh ww mean std) (inr (trt, vt));
         Event (LRCN (rnn_hidden_size args) (rnn_n_layers args) (dropout args)
                  (n_classes args) (pretrained args) (cnn_backbone args))
           (inr model);
         Event (load_dataset (frame_dir args)) (inr (ds, ld));
         Event (dataset_split ds (train_size args) (test_size args))
           (inr (tr, val, ts));
         Event (np_save "./splits.npy" (splits_record tr val ts)) (inr tt);
         Event (VideoDataset tr (fr_per_vid args) trt) (inr trd);
         Event (VideoDataset val (fr_per_vid args) vt) (inr vd);
         Event (train_val_dloaders trd vd (batch_size args) (model_type args))
           (inr dl);
         Event (CrossEntropyLoss "sum") (inr lf);
         Event (parameters model) (inr ps);
         Event (Adam ps (learning_rate args)) (inr opt);
         Event (ReduceLROnPlateau opt "min" (1 # 2) 5 1) (inr sch);
         Event (os_makedirs "./models" true) (inr tt);
         Event (to_device model (device_name cuda)) (inr tt);
         Event (train dl model lf opt sch (device_name cuda) "./models"
                  (n_epochs args)) (inr trained)].
Proof.
  intros Hm. rewrite (main_train_mode _ _ _ Hm). clear Hm.
  unfold main_train. script_simpl.
  run_through h; intros Hok; try discriminate.
  repeat match goal with u : unit |- _ => destruct u end.
  split; [reflexivity|]. do 21 eexists. reflexivity.
Qed.

Lemma train_run_log_witness :
  result (exec demo.env (main (demo.arguments "train")) demo.start) = inr tt.
Proof.
  exact (proj1 (train_run_log demo.env demo.start (demo.arguments "train")
                  eq_refl eq_refl)).
Defined.

End RunMore.

Section RunEval.
Import Py Np Script run_py.

(** The log of an eval-mode run that returns: setup, the loading of the
    record, the test dataset built from the decoded [test] entry with the
    transforms that are not for training, the loader, the checkpoint of
    the path given loaded into the model constructed, the test pass on the
    loader under the key [test], the listing of [UCF50], the print of the
    accuracy times 100, and the two reports on that listing. *)
Theorem eval_run_log {W : Type} (h : handler ret W) (w : W)
    (args : Namespace) :
  mode args = "eval" ->
  result (exec h (main args) w) = inr tt ->
  exists cuda hh ww mean std trt vt model splits arr ts tsd dls state loader
         targets outputs accuracy cats report matrix,
    getitem splits "test" = inr arr
    ∧ decode_split arr = inr ts
    ∧ getitem dls "test" = inr loader
    ∧ trace (exec h (main args) w)
      = [Event cuda_is_available (inr cuda);
         Event (transform_stats (model_type args)) (inr (hh, ww, mean, std));
         Event (compose_data_transforms hh ww mean std) (inr (trt, vt));
         Event (LRCN (rnn_hidden_size args) (rnn_n_layers args) (dropout args)
                  (n_classes args) (pretrained args) (cnn_backbone args))
           (inr model);
         Event (np_load "./splits.npy" true) (inr splits);
         Event (VideoDataset ts (fr_per_vid args) vt) (inr tsd);
         Event (test_dloaders tsd (batch_size args) (model_type args))
           (inr dls);
         Event (torch_load (ckpt args)) (inr state);
         Event (load_state_dict model state) (inr tt);
         Event (to_device model (device_name cuda)) (inr tt);
         Event (test model loader (device_name cuda))
           (inr (targets, outputs, accuracy));
         Event (os_listdir "UCF50") (inr cats);
         Event (print (AccuracyLine (100 * accuracy))) (inr tt);
         Event (get_test_report targets outputs cats) (inr report);
         Event (print (TextLine "
Classification Report:")) (inr tt);
         Event (pprint report) (inr tt);
         Event (get_confusion_matrix targets outputs (dict_of_enumerate cats)
                  cats) (inr matrix);
         Event (print (TextLine "
Confusion Matrix:")) (inr tt);
         Event (pprint matrix) (inr tt)].
Proof.
  intros Hm. rewrite (main_eval_mode _ _ _ Hm). clear Hm.
  unfold main_eval. script_simpl.
  run_through h; intros Hok; try discriminate.
  repeat match goal with u : unit |- _ => destruct u end.
  do 21 eexists.
  split; [eassumption|]. split; [eassumption|]. split; [eassumption|].
  reflexivity.
Qed.

Lemma eval_run_log_witness :
  let train_run := exec demo.env (main (demo.arguments "train")) demo.start in
  length (trace (exec demo.env (main (demo.arguments "eval")) (final train_run)))
  = 19%nat.
Proof.
  intros train_run.
  destruct (eval_run_log demo.env (final train_run) (demo.arguments "eval")
              eq_refl)
    as (cuda & hh & ww & mean & std & trt & vt & model & splits & arr & ts
        & tsd & dls & state & loader & targets & outputs & accuracy & cats
        & report & matrix & _ & _ & _ & Hc).
  { vm_compute. reflexivity. }
  rewrite Hc. reflexivity.
Defined.

End RunEval.

Section RunBranches.
Import Py Np Script run_py.

(** A train-mode run loads nothing, lists nothing, tests nothing and
    prints nothing; an eval-mode run indexes, splits, saves, creates and
    trains nothing.  This holds of every run, also one that fails. *)
Theorem branches_are_exclusive {W : Type} (h : handler ret W) (w : W)
    (args : Namespace) :
  (mode args = "train" ->
   forallb (fun c => negb (is_eval_call c)) (calls (exec h (main args) w))
   = true)
  ∧ (mode args = "eval" ->
     forallb (fun c => negb (is_train_call c)) (calls (exec h (main args) w))
     = true).
Proof.
  split; intros Hm.
  - rewrite (main_train_mode _ _ _ Hm). unfold main_train. script_simpl.
    run_through h; reflexivity.
  - rewrite (main_eval_mode _ _ _ Hm). unfold main_eval. script_simpl.
    run_through h; reflexivity.
Qed.

Lemma branches_are_exclusive_witness :
  forallb (fun c => negb (is_eval_call c))
    (calls (exec demo.env (main (demo.arguments "train")) demo.start)) = true.
Proof.
  exact (proj1 (branches_are_exclusive demo.env demo.start
                  (demo.arguments "train")) eq_refl).
Defined.

(** An eval-mode run does not read the frame directory, the
    proportions, the learning rate or the number of epochs: with other
    values for them the run is the same.  A train-mode run does not read
    the checkpoint path: training never resumes from a checkpoint. *)
Theorem options_not_read {W : Type} (h : handler ret W) (w : W)
    (args : Namespace) :
  (mode args = "eval" ->
   forall fd trs tss lr ne,
     exec h (main (with_training_options fd trs tss lr ne args)) w
     = exec h (main args) w)
  ∧ (mode args = "train" ->
     forall c, exec h (main (with_ckpt c args)) w = exec h (main args) w).
Proof.
  split; intros Hm; intros.
  - unfold main.
    cbn [with_training_options mode model_type rnn_hidden_size rnn_n_layers
         dropout n_classes pretrained cnn_backbone].
    rewrite Hm. reflexivity.
  - unfold main.
    cbn [with_ckpt mode model_type rnn_hidden_size rnn_n_layers
         dropout n_classes pretrained cnn_backbone].
    rewrite Hm. reflexivity.
Qed.

Lemma options_not_read_witness :
  exec demo.env
    (main (with_training_options None 0 0 0 0 (demo.arguments "eval")))
    demo.start
  = exec demo.env (main (demo.arguments "eval")) demo.start.
Proof.
  exact (proj1 (options_not_read demo.env demo.start (demo.arguments "eval"))
           eq_refl None 0%Q 0%Q 0%Q 0).
Defined.

(** Every device a run passes on is the one chosen on line 133 from the
    answer of [torch.cuda.is_available]: [cuda:0] when it is true, [cpu]
    otherwise. *)
Theorem device_follows_cuda {W : Type} (h : handler ret W) (w : W)
    (args : Namespace) :
  Forall (fun c => forall d, device_of c = Some d ->
                   exists cuda,
                     cuda_answer (trace (exec h (main args) w)) = Some cuda
                     ∧ d = device_name cuda)
    (calls (exec h (main args) w)).
Proof.
  unfold main, main_train, main_eval. script_simpl.
  answer h; [script_done; each_call; cbn [device_of]; intros; discriminate|].
  destruct (String.eqb (mode args) "train");
    [|destruct (String.eqb (mode args) "eval")];
    script_simpl; run_through h; each_call;
    cbn [device_of cuda_answer first_some cuda_of]; intros d Hd;
    try discriminate; injection Hd as <-; eauto.
Qed.

(** In a train-mode run no dataset is built before the split record has
    been saved. *)
Theorem record_saved_before_datasets {W : Type} (h : handler ret W) (w : W)
    (args : Namespace) (split : list Sample) :
  mode args = "train" ->
  test_split_used (calls (exec h (main args) w)) = Some split ->
  exists tr val ts pre post,
    trace (exec h (main args) w)
    = pre ++ Event (np_save "./splits.npy" (splits_record tr val ts)) (inr tt)
          :: post
    ∧ forallb (fun c => if dataset_of c is Some _ then false else true)
        (map ev_call pre) = true
    ∧ split = tr.
Proof.
  intros Hm. rewrite (main_train_mode _ _ _ Hm). clear Hm.
  unfold main_train. script_simpl.
  run_through h; cbn [test_split_used first_some dataset_of]; intros Hs;
    try discriminate.
  all: injection Hs as <-.
  all: repeat match goal with u : unit |- _ => destruct u end.
  all: eexists _, _, _, [_; _; _; _; _; _], _.
  all: split; [reflexivity|]; split; reflexivity.
Qed.

Lemma record_saved_before_datasets_witness :
  exists tr val ts pre post,
    trace (exec demo.env (main (demo.arguments "train")) demo.start)
    = pre ++ Event (np_save "./splits.npy" (splits_record tr val ts)) (inr tt)
          :: post.
Proof.
  destruct (record_saved_before_datasets demo.env demo.start
              (demo.arguments "train")
              [("frames/c1/v3", 1); ("frames/c1/v1", 1); ("frames/c0/v6", 0);
               ("frames/c0/v2", 0); ("frames/c1/v9", 1); ("frames/c0/v0", 0);
               ("frames/c0/v4", 0)] eq_refl)
    as (tr & val & ts & pre & post & H & _).
  { vm_compute. reflexivity. }
  exists tr, val, ts, pre, post. exact H.
Defined.

(** What an eval-mode run does with the record that [np.load] returns,
    when that is a dictionary of arrays of strings.  Without the key
    [test] the run ends with [KeyError] after five calls, before a
    dataset is built or a checkpoint loaded.  With the key, and plain
    strings in the label column, the run ends in the same place with the
    error of decoding when a row is too short or its label is no
    integer, and otherwise builds the test dataset from the decoded
    rows. *)
Theorem eval_checks_record {W : Type} (h : handler ret W) (w : W)
    (args : Namespace) (file : string) (record : npy) :
  mode args = "eval" ->
  record_loaded (trace (exec h (main args) w)) = Some (file, record) ->
  file = "./splits.npy"
  ∧ (record !! "test" = None ->
     result (exec h (main args) w) = inl (KeyError "test")
     ∧ length (calls (exec h (main args) w)) = 5%nat)
  ∧ (forall arr,
       record !! "test" = Some arr -> labels_plain arr ->
       match decode_split arr with
       | inl e =>
           result (exec h (main args) w) = inl e
           ∧ length (calls (exec h (main args) w)) = 5%nat
       | inr ts => test_split_used (calls (exec h (main args) w)) = Some ts
       end).
Proof.
  intros Hm. rewrite (main_eval_mode _ _ _ Hm). clear Hm.
  unfold main_eval. script_simpl.
  do 5 (answer h; [script_done; cbn [record_loaded first_some loaded_of];
                   intros; discriminate|]).
  rewrite !trace_after, !calls_after, !result_after.
  cbn [record_loaded first_some loaded_of ev_call ev_resp].
  intros Hl. injection Hl as <- <-. split; [reflexivity|].
  unfold getitem. split.
  - intros ->. cbn [lift]. script_simpl. script_done. auto.
  - intros arr -> _. cbn [lift]. script_simpl.
    destruct (decode_split arr) as [e|ts]; cbn [lift]; script_simpl.
    + script_done. auto.
    + answer h; script_done; reflexivity.
Qed.

Lemma eval_checks_record_witness :
  result (exec demo.env (main (demo.arguments "eval"))
            (demo.World {[ "./splits.npy" := {[ "train" := [] ]} ]} ∅))
  = inl (KeyError "test")
  ∧ test_split_used
      (calls (exec demo.env (main (demo.arguments "eval"))
                (demo.World
                   {[ "./splits.npy" := {[ "test" := [["p"; " 7"]] ]} ]} ∅)))
    = Some [("p", 7)].
Proof.
  split.
  - destruct (eval_checks_record demo.env
                (demo.World {[ "./splits.npy" := {[ "train" := [] ]} ]} ∅)
                (demo.arguments "eval") "./splits.npy" {[ "train" := [] ]}
                eq_refl) as (_ & H & _).
    { vm_compute. reflexivity. }
    apply H. vm_compute. reflexivity.
  - destruct (eval_checks_record demo.env
                (demo.World
                   {[ "./splits.npy" := {[ "test" := [["p"; " 7"]] ]} ]} ∅)
                (demo.arguments "eval") "./splits.npy"
                {[ "test" := [["p"; " 7"]] ]} eq_refl) as (_ & _ & H).
    { vm_compute. reflexivity. }
    refine (H [["p"; " 7"]] _ _).
    + vm_compute. reflexivity.
    + repeat constructor. intros d Hd. injection Hd as <-.
      vm_compute. reflexivity.
Defined.

End RunBranches.

(** * Further properties of the Python computations of the scripts *)

Section RecordMore.
Import Py Np run_py.

(** The record built on lines 149-151 holds each split under its key,
    as rows of two columns, one row per sample, from which the decoding
    of line 174 gives the split back; any other key is a [KeyError]. *)
Theorem record_holds_three_splits (tr val ts : list Sample) (key : string) :
  let record := splits_record tr val ts in
  getitem record "train" = inr (array tr)
  ∧ getitem record "val" = inr (array val)
  ∧ getitem record "test" = inr (array ts)
  ∧ decode_split (array tr) = inr tr
  ∧ decode_split (array val) = inr val
  ∧ length (array ts) = length ts
  ∧ Forall (fun row => length row = 2%nat) (array ts)
  ∧ (key ∉ split_keys -> getitem record key = inl (KeyError key)).
Proof.
  cbv zeta. unfold getitem, splits_record.
  split; [reflexivity|]. split; [reflexivity|]. split; [reflexivity|].
  split; [apply decode_split_array|]. split; [apply decode_split_array|].
  split; [apply length_map|].
  split; [apply Forall_map, Forall_forall; reflexivity|].
  unfold split_keys. intros Hk.
  rewrite !lookup_insert_ne, lookup_empty by set_solver. reflexivity.
Qed.

Lemma record_holds_three_splits_witness :
  getitem (splits_record [] [] []) "labels" = inl (KeyError "labels").
Proof.
  refine (proj2 (proj2 (proj2 (proj2 (proj2 (proj2 (proj2
            (record_holds_three_splits [] [] [] "labels"))))))) _).
  apply (bool_decide_unpack ("labels" ∉ split_keys)). vm_compute. exact I.
Defined.

(** The decoding of line 174, for an array with plain strings in its
    label column, reads the first two columns of a row and nothing else:
    when it succeeds there is one sample per row, made of the first
    column and the integer the second one denotes; it fails when some
    row has fewer than two columns or a second column that is not an
    integer. *)
Theorem decode_split_rows (arr : ndarray) :
  labels_plain arr ->
  match decode_split arr with
  | inr samples =>
      length samples = length arr
      ∧ forall i row, arr !! i = Some row ->
          exists path digits label,
            row !! 0%nat = Some path ∧ row !! 1%nat = Some digits
            ∧ int digits = inr label ∧ samples !! i = Some (path, label)
  | inl e =>
      exists row, row ∈ arr ∧ decode_sample row = inl e
                  ∧ (e = IndexError ∧ (length row < 2)%nat
                     ∨ exists digits, row !! 1%nat = Some digits
                                      ∧ int digits = inl e)
  end.
Proof.
  intros _. induction arr as [|row arr IH]; cbn [decode_split].
  - split; [reflexivity|]. intros i row H. discriminate.
  - destruct (decode_sample row) as [e|s] eqn:Es.
    + exists row. split; [set_solver|]. split; [exact Es|].
      unfold decode_sample, row_item in Es.
      destruct row as [|p [|d row]]; cbn in Es.
      * left. injection Es as <-. cbn. split; [reflexivity|lia].
      * left. injection Es as <-. cbn. split; [reflexivity|lia].
      * right. exists d. split; [reflexivity|].
        destruct (int d); [congruence|discriminate].
    + destruct (decode_split arr) as [e|samples].
      * destruct IH as (row' & Hin & Hrest). exists row'.
        split; [set_solver|exact Hrest].
      * destruct IH as [Hlen Hrows]. split; [cbn; now rewrite Hlen|].
        intros [|i] row' Hi; cbn in Hi.
        -- injection Hi as <-. unfold decode_sample, row_item in Es.
           destruct (row !! 0%nat) as [p|]; [|discriminate].
           destruct (row !! 1%nat) as [d|]; [|discriminate].
           destruct (int d) as [e|n] eqn:Ei; [discriminate|].
           injection Es as <-. eauto 10.
        -- apply Hrows. exact Hi.
Qed.

Lemma decode_split_rows_witness :
  decode_split [["p"; " 7"; "x"]; ["q"; "1_000"]] = inr [("p", 7); ("q", 1000)]
  ∧ exists row,
      decode_sample row = inl IndexError
      ∧ decode_split [["p"; "+5"]; row] = inl IndexError.
Proof.
  split; [vm_compute; reflexivity|].
  pose proof (decode_split_rows [["p"; "+5"]; ["q"]]) as H.
  destruct (decode_split [["p"; "+5"]; ["q"]]) as [e|l] eqn:E;
    [|vm_compute in E; discriminate E].
  destruct H as (row & Hin & Hrow & Hkind).
  { repeat constructor; intros d Hd; try discriminate Hd.
    injection Hd as <-. vm_compute. reflexivity. }
  assert (He : e = IndexError) by (vm_compute in E; now injection E as <-).
  subst e.
  apply elem_of_cons in Hin as [->|Hin]; [vm_compute in Hrow; discriminate Hrow|].
  apply elem_of_cons in Hin as [->|Hin]; [|inversion Hin].
  exists ["q"]. split; [exact Hrow|reflexivity].
Defined.

(** The comprehension of line 186, for any listing: every entry of the
    dictionary points to a position of the listing that holds its name,
    the last such position, so that the ids are below the number of
    names and two names never share an id; and the keys are the names
    listed. *)
Theorem labels_dict_entries (all_cats : list string) :
  let d := dict_of_enumerate all_cats in
  (forall c i, d !! c = Some i ->
     all_cats !! i = Some c
     ∧ forall j, (i < j)%nat -> all_cats !! j <> Some c)
  ∧ (forall c1 c2 i, d !! c1 = Some i -> d !! c2 = Some i -> c1 = c2)
  ∧ (forall c, c ∈ all_cats <-> is_Some (d !! c)).
Proof.
  cbv zeta.
  assert (Hgen : forall l k d0 c i,
             enum_from k l d0 !! c = Some i ->
             ((k <= i)%nat ∧ l !! Nat.sub i k = Some c
              ∧ (forall j, (i - k < j)%nat -> l !! j <> Some c))
             ∨ ((c ∉ l) ∧ d0 !! c = Some i)).
  { induction l as [|x l IH]; intros k d0 c i H.
    - right. split; [set_solver|exact H].
    - rewrite enum_from_cons in H.
      destruct (IH _ _ _ _ H) as [(Hk & Hl & Hlast)|[Hnot Hd]].
      + left. split; [lia|].
        replace (i - k)%nat with (S (i - S k)) by lia. split; [exact Hl|].
        intros [|j] Hj; [lia|]. cbn. apply Hlast. lia.
      + destruct (decide (c = x)) as [->|Hne].
        * rewrite lookup_insert_eq in Hd. injection Hd as <-. left.
          split; [lia|]. rewrite Nat.sub_diag. split; [reflexivity|].
          intros [|j] Hj; [lia|]. cbn. intros Hx.
          apply Hnot. eapply list_elem_of_lookup_2. exact Hx.
        * rewrite lookup_insert_ne in Hd by congruence.
          right. split; [set_solver|exact Hd]. }
  assert (Hent : forall c i, dict_of_enumerate all_cats !! c = Some i ->
                   all_cats !! i = Some c
                   ∧ forall j, (i < j)%nat -> all_cats !! j <> Some c).
  { intros c i H. destruct (Hgen all_cats 0%nat ∅ c i H)
      as [(_ & Hl & Hlast)|[_ Hd]]; [|discriminate].
    rewrite Nat.sub_0_r in *. auto. }
  split; [exact Hent|]. split.
  - intros c1 c2 i H1 H2. apply Hent in H1 as [H1 _], H2 as [H2 _]. congruence.
  - intros c. rewrite <- elem_of_dom, dict_of_enumerate_dom. set_solver.
Qed.

Lemma labels_dict_entries_witness :
  ["walk"; "run"; "walk"] !! 2%nat = Some "walk".
Proof.
  refine (proj1 (proj1 (labels_dict_entries ["walk"; "run"; "walk"])
                   "walk" 2%nat _)).
  vm_compute. reflexivity.
Defined.

End RecordMore.

Section StringMore.
Import Py.
Local Open Scope string_scope.

Lemma substring_all (s : string) : substring 0 (String.length s) s = s.
Proof. induction s as [|c s IH]; simpl; [reflexivity|now rewrite IH]. Qed.

Lemma substring_skip (pre s : string) (m : nat) :
  substring (String.length pre) m (pre ++ s) = substring 0 m s.
Proof. induction pre as [|c pre IH]; simpl; [reflexivity|exact IH]. Qed.

Lemma length_append (s1 s2 : string) :
  String.length (s1 ++ s2) = (String.length s1 + String.length s2)%nat.
Proof.
  induction s1 as [|c s1 IH]; simpl; [reflexivity|now rewrite IH].
Qed.

Lemma split_at (k : nat) (s : string) :
  (k <= String.length s)%nat ->
  s = substring 0 k s ++ substring k (String.length s - k) s.
Proof.
  revert s. induction k as [|k IH]; intros s Hk.
  - rewrite Nat.sub_0_r, substring_all. now destruct s.
  - destruct s as [|c s]; simpl in *; [lia|].
    change (String c s
            = String c (substring 0 k s ++ substring k (String.length s - k) s)).
    f_equal. apply IH. lia.
Qed.

(** [endswith] holds exactly of the strings that are the suffix with
    something in front: the test of line 43 accepts a name exactly when
    it is some text followed by [.avi], in lower case. *)
Theorem endswith_iff (s suffix : string) :
  endswith s suffix = true <-> exists pre, s = pre ++ suffix.
Proof.
  unfold endswith. split.
  - destruct (Nat.leb_spec (String.length suffix) (String.length s)) as [Hle|];
      [|discriminate].
    intros H. apply String.eqb_eq in H.
    exists (substring 0 (String.length s - String.length suffix) s).
    pose proof (split_at (String.length s - String.length suffix) s) as Hs.
    replace (String.length s - (String.length s - String.length suffix))%nat
      with (String.length suffix) in Hs by lia.
    rewrite H in Hs. apply Hs. lia.
  - intros [pre ->]. rewrite length_append.
    destruct (Nat.leb_spec (String.length suffix)
                (String.length pre + String.length suffix)) as [_|]; [|lia].
    replace (String.length pre + String.length suffix - String.length suffix)%nat
      with (String.length pre) by lia.
    rewrite substring_skip, substring_all. apply String.eqb_refl.
Qed.

(** The folder of a video is named by the part of the file name before
    its first dot: that part holds no dot itself and starts the name; a
    name without a dot is kept whole; and two names that agree before
    their first dot, such as [v.old.avi] and [v.new.avi], get the same
    folder, so that the frames of one end up with those of the other. *)
Theorem split_head_stem (sep : ascii) (s : string) :
  split_head sep (split_head sep s) = split_head sep s
  ∧ (s = split_head sep s
     ∨ exists rest, s = split_head sep s ++ String sep rest)
  ∧ (forall stem rest1 rest2 store_path dir,
       split_head sep stem = stem ->
       split_head sep (stem ++ String sep rest1) = stem
       ∧ os_path_join store_path
           [dir; split_head sep (stem ++ String sep rest1)]
         = os_path_join store_path
             [dir; split_head sep (stem ++ String sep rest2)]).
Proof.
  assert (Hstem : forall stem rest,
             split_head sep stem = stem ->
             split_head sep (stem ++ String sep rest) = stem).
  { induction stem as [|c stem IH]; intros rest H; simpl in *.
    - now rewrite Ascii.eqb_refl.
    - destruct (Ascii.eqb c sep); [discriminate|].
      injection H as H. now rewrite IH. }
  split; [|split].
  - induction s as [|c s IH]; simpl; [reflexivity|].
    destruct (Ascii.eqb c sep) eqn:E; [reflexivity|].
    simpl. now rewrite E, IH.
  - induction s as [|c s IH]; simpl; [now left|].
    destruct (Ascii.eqb_spec c sep) as [->|Hne].
    + right. exists s. reflexivity.
    + destruct IH as [IH|[rest IH]].
      * left. now rewrite <- IH.
      * right. exists rest.
        change (String c s = String c (split_head sep s ++ String sep rest)).
        now rewrite <- IH.
  - intros stem rest1 rest2 store_path dir H.
    now rewrite !Hstem by exact H.
Qed.

Lemma split_head_stem_witness :
  split_head "." ("v" ++ String "." "old.avi") = "v"
  ∧ os_path_join "/repo/UCF50" ["Biking"; split_head "." "v.old.avi"]
    = os_path_join "/repo/UCF50" ["Biking"; split_head "." "v.new.avi"].
Proof.
  exact (proj2 (proj2 (split_head_stem "." "v")) "v" "old.avi" "new.avi"
           "/repo/UCF50" "Biking" eq_refl).
Defined.

Lemma endswith_tail (a b : string) :
  b <> "" -> endswith (a ++ b) "/" = true -> endswith b "/" = true.
Proof.
  intros Hb H. apply endswith_iff in H as [pre H]. apply endswith_iff.
  revert pre H. induction a as [|y a IH]; intros pre H.
  - exists pre. exact H.
  - destruct pre as [|x pre]; simpl in H.
    + injection H as _ H. destruct a; simpl in H; [contradiction|discriminate].
    + injection H as _ H. exact (IH pre H).
Qed.

(** [os.path.join] as the scripts use it.  For a base that is not empty
    and does not end in a slash, and a class folder and a name that are
    not empty and neither start nor, for the folder, end with a slash,
    the result is the three separated by slashes.  A last component that
    starts with a slash replaces everything before it. *)
Theorem os_path_join_plain (base dir name : string) :
  (base <> "" -> endswith base "/" = false ->
   dir <> "" -> startswith dir "/" = false -> endswith dir "/" = false ->
   startswith name "/" = false ->
   os_path_join base [dir; name] = base ++ "/" ++ dir ++ "/" ++ name)
  ∧ (startswith name "/" = true -> os_path_join base [dir; name] = name).
Proof.
  unfold os_path_join. cbn [fold_left]. split.
  - intros Hb Hbs Hd Hds Hde Hn. unfold join_step at 2. rewrite Hds.
    apply String.eqb_neq in Hb. rewrite Hb, Hbs. cbn [orb].
    unfold join_step. rewrite Hn.
    assert (H1 : String.eqb (base ++ "/" ++ dir) "" = false).
    { destruct base; [discriminate Hb|reflexivity]. }
    assert (H2 : endswith (base ++ "/" ++ dir) "/" = false).
    { destruct (endswith (base ++ "/" ++ dir) "/") eqn:E; [|reflexivity].
      apply endswith_tail in E; [|discriminate].
      apply (endswith_tail "/" dir Hd) in E. congruence. }
    rewrite H1, H2. cbn [orb].
    clear. induction base as [|c base IH]; [reflexivity|].
    change (String c ((base ++ "/" ++ dir) ++ "/" ++ name)
            = String c (base ++ "/" ++ dir ++ "/" ++ name)).
    now rewrite IH.
  - intros Hn. unfold join_step at 1. now rewrite Hn.
Qed.

Lemma os_path_join_plain_witness :
  os_path_join "/repo/UCF50" ["Biking"; "v"] = "/repo/UCF50/Biking/v".
Proof.
  refine (proj1 (os_path_join_plain "/repo/UCF50" "Biking" "v") _ _ _ _ _ _);
    first [reflexivity | discriminate].
Defined.

End StringMore.

(** * Further properties of [preprocess.py] *)

Section PreprocessMore.
Import Py Script preprocess_py.

(** [preprocess_video] catches nothing: a run either has all its calls
    return and returns, or ends with the exception of its last call, all
    earlier calls having returned; so the first video that cannot be read
    or stored ends the run, and the files after it are not processed.
    The same holds of the whole script, whose closing line is printed
    last, and only when [preprocess_video] has returned. *)
Theorem preprocess_stops_at_first_failure {W : Type} (h : handler ret W)
    (w : W) (root store_path : string) :
  stops_at_failure (exec h (preprocess_video root store_path) w)
  ∧ stops_at_failure (exec h (main_block root) w)
  ∧ (forall c,
       last (calls (exec h (main_block root) w)) = Some c ->
       result (exec h (main_block root) w) = inr tt ->
       c = print ("Frames extracted and stored in "
                    ++ os_path_join root ["UCF50"])%string)
  ∧ (result (exec h (main_block root) w) = inr tt ->
     result (exec h (preprocess_video root (os_path_join root ["UCF50"])) w)
     = inr tt).
Proof.
  split; [apply stops_preprocess_video|].
  unfold main_block.
  change (exec h (_ ← preprocess_video root (os_path_join root ["UCF50"]);
                  perform (print ("Frames extracted and stored in "
                                    ++ os_path_join root ["UCF50"])%string)) w)
    with (exec h (bind (fun _ : unit =>
                          perform (print ("Frames extracted and stored in "
                                            ++ os_path_join root ["UCF50"])%string))
                    (preprocess_video root (os_path_join root ["UCF50"]))) w).
  rewrite exec_bind.
  set (o := exec h (preprocess_video root (os_path_join root ["UCF50"])) w).
  split; [|split].
  - apply stops_and_then; [apply stops_preprocess_video|].
    intros a w'. script_simpl.
    destruct (h _ w') as [[e|[]] w'']; [apply stops_failed|].
    left. split; [reflexivity|eauto].
  - unfold and_then. destruct (result o) as [e|[]]; [discriminate 2|].
    script_simpl. destruct (h _ (final o)) as [[e|[]] w'']; [discriminate 2|].
    unfold calls. cbn [trace result]. rewrite map_app, trace_after.
    cbn [map ev_call trace]. rewrite last_snoc.
    intros c Hc _. now injection Hc as <-.
  - unfold and_then. destruct (result o) as [e|[]] eqn:Eo; [discriminate|].
    reflexivity.
Qed.

Lemma preprocess_stops_at_first_failure_witness :
  last (calls (exec tree_env (main_block "/repo") []))
  = Some (print "Frames extracted and stored in /repo/UCF50").
Proof.
  pose proof (preprocess_stops_at_first_failure tree_env [] "/repo" "")
    as (_ & _ & Hlast & _).
  destruct (last (calls (exec tree_env (main_block "/repo") []))) as [c|] eqn:E.
  - f_equal. exact (Hlast c eq_refl eq_refl).
  - vm_compute in E. discriminate E.
Defined.

(** Calls are made for a file exactly when its name is some text
    followed by [.avi], in lower case: for any other name, [.AVI] or
    [.mp4] say, the run of the loop body is empty. *)
Theorem frames_for_avi_names_only {W : Type} (h : handler ret W) (w : W)
    (video_dir store_path dir filename : string) :
  calls (exec h (process_file video_dir store_path dir filename) w) <> []
  <-> exists stem, filename = (stem ++ ".avi")%string.
Proof.
  rewrite <- endswith_iff. unfold process_file.
  destruct (endswith filename ".avi").
  - script_simpl. split; [reflexivity|]. intros _.
    destruct (h (print filename) w) as [[e|x] w']; [discriminate|].
    rewrite calls_after. discriminate.
  - split; [intros H; now contradiction H|discriminate].
Qed.

Lemma frames_for_avi_names_only_witness :
  calls (exec tree_env
           (process_file "/repo/UCF50_video" "/repo/UCF50" "Biking" "v.avi") [])
  <> [].
Proof.
  apply (frames_for_avi_names_only tree_env [] "/repo/UCF50_video"
           "/repo/UCF50" "Biking" "v.avi").
  exists "v". reflexivity.
Defined.

(** The store folder is checked first: it is created, without
    [exist_ok], right after the check and only when the check says it
    does not exist; no other call creates a folder without [exist_ok]. *)
Theorem store_path_created_if_missing {W : Type} (h : handler ret W) (w : W)
    (root store_path : string) :
  let o := exec h (preprocess_video root store_path) w in
  calls o !! 0%nat = Some (os_path_exists store_path)
  ∧ (forall w', h (os_path_exists store_path) w = (inr false, w') ->
                calls o !! 1%nat = Some (os_makedirs store_path false))
  ∧ (forall w', h (os_path_exists store_path) w = (inr true, w') ->
                forall p, os_makedirs p false ∉ calls o).
Proof.
  cbv zeta. unfold preprocess_video. script_simpl.
  destruct (h (os_path_exists store_path) w) as [[e|[]] w1] eqn:E;
    script_simpl.
  - split; [reflexivity|]. split; intros; discriminate.
  - split; [now rewrite !calls_after|]. split; [intros; discriminate|].
    intros w' _ p.
    destruct (h (os_listdir _) w1) as [[e|dirs] w2]; script_simpl.
    + script_done. set_solver.
    + rewrite !calls_after. cbn [ev_call]. intros Hin.
      apply elem_of_cons in Hin as [Hin|Hin]; [discriminate|].
      apply elem_of_cons in Hin as [Hin|Hin]; [discriminate|].
      assert (Hno : Forall (fun c => forall q, c <> os_makedirs q false)
                      (calls (exec h (for_each dirs
                                (process_dir (os_path_join root ["UCF50_video"])
                                   store_path)) w2))).
      { apply for_each_Forall. intros ? ?. unfold process_dir. script_simpl.
        answer h; [script_done; each_call; discriminate|].
        answer h; [script_done; each_call; discriminate|].
        rewrite !calls_after. cbn [ev_call].
        do 2 (constructor; [discriminate|]).
        apply for_each_Forall. intros f ?. unfold process_file.
        destruct (endswith f ".avi"); script_simpl.
        - run_through h; each_call; discriminate.
        - constructor. }
      rewrite Forall_forall in Hno. exact (Hno _ Hin p eq_refl).
  - split; [now rewrite !calls_after|]. split; [|intros; discriminate].
    intros w' _.
    destruct (h (os_makedirs store_path false) w1) as [[e|[]] w2];
      script_simpl; [reflexivity|].
    destruct (h (os_listdir _) w2) as [[e|dirs] w3]; script_simpl;
      [reflexivity|].
    now rewrite !calls_after.
Qed.

Lemma store_path_created_if_missing_witness :
  calls (exec tree_env (preprocess_video "/repo" "/repo/UCF50") []) !! 1%nat
  = Some (os_makedirs "/repo/UCF50" false).
Proof.
  exact (proj1 (proj2 (store_path_created_if_missing tree_env []
                         "/repo" "/repo/UCF50")) [] eq_refl).
Defined.

End PreprocessMore.
